(** * Offline-certificate ledger reconciliation (ble-temp-server)

    A shallow embedding of the Express handlers of the repository:

    - [CryptoService]            services/CryptoService.ts
                                 (sign / verify / getPublicKey)
    - [Wallet.post_certificate]  routes/walletRoutes.ts, POST /certificate
    - [Refund.post_sync]         routes/transactionRoutes.ts, POST /sync: the
                                 handler whose step 3 is "Refund Unspent
                                 Portion of the Certificate" and whose answer
                                 has the key [refunded]
    - [Change.post_sync]         the other POST /sync handler of the
                                 repository: step 3 is "Handle Unspent Portion
                                 (Keep the Change)" and the answer has the key
                                 [new_certificate]

    The Supabase client and tweetnacl are external collaborators.  The store
    is modelled as two tables keyed by [id]; a query resolves to
    [{ data, error }] as the client's does, and the only errors the model
    produces are the ones the table contents decide (PGRST116 from [single()]
    on no row, a duplicate key on insert).  The signature primitive and the
    text codecs are an interface ([NaclLib]); the laws of an ideal signature
    scheme are stated separately ([NaclLaws]) and assumed only where a
    property says so.  The clock and the random generator hand each request
    its values through [Ambient].  Amounts and balances are JS numbers holding
    integers and are modelled in [Z]; the [balance] column is taken to be NOT
    NULL. *)

From Stdlib Require Import ZArith Lia.
From Stdlib.Strings Require Import Byte Ascii.
From stdpp Require Import base option list strings pretty gmap fin_maps.

Local Open Scope string_scope.
Local Open Scope Z_scope.

(** ** JavaScript values used by the handlers *)

Module Js.

(** Truthiness of an optional string: [undefined] and the empty string are
    falsy. *)
Definition truthy (v : option string) : bool :=
  match v with
  | Some (String _ _) => true
  | _ => false
  end.

(** Truthiness of a string value. *)
Definition truthy_str (s : string) : bool :=
  match s with
  | String _ _ => true
  | EmptyString => false
  end.

(** [a || b] on optional strings. *)
Definition or (a b : option string) : option string :=
  if truthy a then a else b.

(** [a || 'literal'] where the right operand is a string literal. *)
Definition or_lit (a : option string) (lit : string) : string :=
  match a with
  | Some (String c s) => String c s
  | _ => lit
  end.

(** [n || 0] on a number. *)
Definition or0 (n : Z) : Z := if decide (n = 0) then 0 else n.

(** [Array.prototype.join]. *)
Fixpoint join (sep : string) (parts : list string) : string :=
  match parts with
  | [] => ""
  | [p] => p
  | p :: rest => p +:+ sep +:+ join sep rest
  end.

(** [String(n)] for an integer [n]. *)
Definition of_number (n : Z) : string := pretty n.

End Js.

(** ** Data model *)

Module Certificate.
Record t := mk {
  user_id : string;
  device_id : string;
  tip_wallet_balance : Z;
  timestamp : string;
  nonce : string;
  expiration : string;
  signature : string
}.
End Certificate.

(** A record of the [transactions] array of the request body. *)
Module Tx.
Record t := mk {
  transaction_id : string;
  sender_user_id : option string;
  sender_device_id : option string;
  receiver_user_id : option string;
  receiver_device_id : option string;
  amount : Z;
  sender_signature : option string
}.
End Tx.

(** A row of the [users] table. *)
Module User.
Record t := mk {
  id : string;
  balance : Z;
  public_key : string
}.
End User.

(** A row of the [transactions] table. *)
Module TxRow.
Record t := mk {
  id : string;
  sender_id : option string;
  receiver_id : string;
  amount : Z;
  signature : option string;
  payload : Tx.t
}.
End TxRow.

(** The two tables, keyed by their primary key [id]. *)
Record Db := mkDb {
  users : gmap string User.t;
  transactions : gmap string TxRow.t
}.

(** ** The store client

    Every call of the Supabase query builder resolves to [{ data, error }]. *)

Record PgError := mkPgError { code : string }.

Definition PGRST116 : PgError := {| code := "PGRST116" |}.
Definition unique_violation : PgError := {| code := "23505" |}.

Record PgResult (A : Type) := mkPgResult {
  data : option A;
  error : option PgError
}.
Arguments mkPgResult {A} _ _.
Arguments data {A} _.
Arguments error {A} _.

(** What a handler can throw inside its [try] block. *)
Inductive Exn :=
| ExnPg (e : PgError)
| ExnJs.   (* an Error or TypeError raised by a library or the runtime *)

(** An awaited computation over the store that may throw. *)
Definition Async (A : Type) : Type := Db → Db * (Exn + A).

Definition throw {A} (e : Exn) : Async A := λ db, (db, inl e).

Global Instance Async_ret : MRet Async := λ A a db, (db, inr a).

Global Instance Async_bind : MBind Async := λ A B k m db,
  match m db with
  | (db', inl e) => (db', inl e)
  | (db', inr a) => k a db'
  end.

Module Supabase.

(** [from('transactions').select('id').eq('id', id).maybeSingle()] *)
Definition select_transaction (id : string) : Async (PgResult string) :=
  λ db, (db, inr (mkPgResult (TxRow.id <$> transactions db !! id) None)).

(** [from('transactions').insert(row)] *)
Definition insert_transaction (row : TxRow.t) : Async (PgResult ()) :=
  λ db,
    match transactions db !! TxRow.id row with
    | Some _ => (db, inr (mkPgResult None (Some unique_violation)))
    | None =>
        (mkDb (users db) (<[TxRow.id row := row]> (transactions db)),
         inr (mkPgResult None None))
    end.

(** [from('users').select(...).eq('id', id).single()] *)
Definition select_user (id : string) : Async (PgResult User.t) :=
  λ db,
    match users db !! id with
    | Some u => (db, inr (mkPgResult (Some u) None))
    | None => (db, inr (mkPgResult None (Some PGRST116)))
    end.

(** [from('users').update({ balance }).eq('id', id)] *)
Definition update_balance (id : string) (newBalance : Z) : Async (PgResult ()) :=
  λ db,
    (mkDb (alter (λ u, User.mk (User.id u) newBalance (User.public_key u)) id (users db))
          (transactions db),
     inr (mkPgResult None None)).

(** [from('users').insert(row)] *)
Definition insert_user (row : User.t) : Async (PgResult ()) :=
  λ db,
    match users db !! User.id row with
    | Some _ => (db, inr (mkPgResult None (Some unique_violation)))
    | None =>
        (mkDb (<[User.id row := row]> (users db)) (transactions db),
         inr (mkPgResult None None))
    end.

End Supabase.

(** ** services/CryptoService.ts *)

(** tweetnacl and tweetnacl-util, as far as the service calls them.  A
    result [None] stands for a thrown exception ([decodeBase64] on a malformed
    string, [nacl.sign.detached.verify] on a signature or key of the wrong
    size). *)
Global Instance byte_eq_dec : EqDecision Byte.byte := Stdlib.Strings.Byte.byte_eq_dec.

Record NaclLib := mkNaclLib {
  decodeUTF8 : string → list Byte.byte;
  encodeBase64 : list Byte.byte → string;
  decodeBase64 : string → option (list Byte.byte);
  sign_detached : list Byte.byte → list Byte.byte → list Byte.byte;
  sign_detached_verify :
    list Byte.byte → list Byte.byte → list Byte.byte → option bool
}.

Record SignKeyPair := mkSignKeyPair {
  publicKey : list Byte.byte;
  secretKey : list Byte.byte
}.

Module CryptoService.

Record t := mk {
  nacl : NaclLib;
  keyPair : SignKeyPair
}.

Definition getPublicKey (this : t) : string :=
  encodeBase64 (nacl this) (publicKey (keyPair this)).

Definition sign (this : t) (message : string) : string :=
  let messageUint8 := decodeUTF8 (nacl this) message in
  let signature := sign_detached (nacl this) messageUint8 (secretKey (keyPair this)) in
  encodeBase64 (nacl this) signature.

Definition verify (this : t) (message signature publicKey : string) : option bool :=
  let messageUint8 := decodeUTF8 (nacl this) message in
  signatureUint8 ← decodeBase64 (nacl this) signature;
  publicKeyUint8 ← decodeBase64 (nacl this) publicKey;
  sign_detached_verify (nacl this) messageUint8 signatureUint8 publicKeyUint8.

End CryptoService.

(** The laws of the external libraries the proofs about certificates rely
    on: the codecs round-trip, and the detached signature is an ideal one
    (a signature made with the server's secret key verifies for its own
    message under the server's public key, and for no other message). *)
Class NaclLaws (cs : CryptoService.t) : Prop := {
  base64_round_trip :
    ∀ b, decodeBase64 (CryptoService.nacl cs) (encodeBase64 (CryptoService.nacl cs) b) = Some b;
  utf8_injective :
    ∀ s s',
      decodeUTF8 (CryptoService.nacl cs) s = decodeUTF8 (CryptoService.nacl cs) s' →
      s = s';
  detached_accepts :
    ∀ m, sign_detached_verify (CryptoService.nacl cs) m
           (sign_detached (CryptoService.nacl cs) m (secretKey (CryptoService.keyPair cs)))
           (publicKey (CryptoService.keyPair cs)) = Some true;
  detached_binds :
    ∀ m m', m ≠ m' →
      sign_detached_verify (CryptoService.nacl cs) m'
        (sign_detached (CryptoService.nacl cs) m (secretKey (CryptoService.keyPair cs)))
        (publicKey (CryptoService.keyPair cs)) = Some false
}.

(** ** Certificates on the wire *)

(** The string both the issuing and the verifying side build:
    [[user_id, device_id, tip_wallet_balance, timestamp, nonce, expiration].join('|')]. *)
Definition canonical (user_id device_id : string) (tip_wallet_balance : Z)
    (timestamp nonce expiration : string) : string :=
  Js.join "|" [user_id; device_id; Js.of_number tip_wallet_balance;
               timestamp; nonce; expiration].

(** [certToVerify] of POST /sync. *)
Definition certToVerify (certificate : Certificate.t) : string :=
  canonical (Certificate.user_id certificate) (Certificate.device_id certificate)
    (Certificate.tip_wallet_balance certificate) (Certificate.timestamp certificate)
    (Certificate.nonce certificate) (Certificate.expiration certificate).

(** [isCertValid] of POST /sync. *)
Definition isCertValid (cs : CryptoService.t) (certificate : Certificate.t) : option bool :=
  CryptoService.verify cs (certToVerify certificate)
    (Certificate.signature certificate) (CryptoService.getPublicKey cs).

(** The values the clock and the random generator hand to one request:
    [new Date().toISOString()], the nonce expression, and the ISO string of
    the expiry instant. *)
Record Ambient := mkAmbient {
  now_iso : string;
  fresh_nonce : string;
  expiry_iso : string
}.

(** ** HTTP responses *)

Inductive Response (B : Type) :=
| Json (body : B)                       (* res.json(body), status 200 *)
| Status (status : Z) (error : string). (* res.status(status).json({ error }) *)
Arguments Json {B} _.
Arguments Status {B} _ _.

(** Body of a successful POST /sync.  Each handler sends one of
    [new_certificate] / [refunded]; a key the handler does not send is [None]
    ([new_certificate: null] is [None] as well). *)
Module SyncBody.
Record t := mk {
  processed : list string;
  new_certificate : option Certificate.t;
  refunded : option Z;
  total_spent : Z;
  balance : Z
}.
End SyncBody.

(** The body of an answer sent with [res.json]. *)
Definition body_of {B : Type} (r : Response B) : option B :=
  match r with
  | Json body => Some body
  | Status _ _ => None
  end.

(** Body of a POST /sync request. *)
Module SyncReq.
Record t := mk {
  certificate : option Certificate.t;
  transactions : option (list Tx.t);   (* [None]: missing or not an array *)
  user_id : option string
}.
End SyncReq.

(** ** Parts the two POST /sync handlers share verbatim *)

(** [for (const x of l) body], threading the loop's local variables. *)
Fixpoint for_of {A S : Type} (body : S → A → Async S) (l : list A) (s : S) : Async S :=
  match l with
  | [] => mret s
  | x :: rest => s' ← body s x; for_of body rest s'
  end.

(** Step 1 of the [try] block: the certificate check.  [inr false] is the
    early [return res.status(401)]. *)
Definition checkCertificate (cs : CryptoService.t)
    (certificate : option Certificate.t) : Exn + bool :=
  match certificate with
  | None => inr true
  | Some c =>
      match isCertValid cs c with
      | None => inl ExnJs
      | Some isValid => inr isValid
      end
  end.

(** The [senderId] computation. *)
Definition senderId (certificate : option Certificate.t) (tx : Tx.t) : option string :=
  let senderId := Tx.sender_user_id tx in
  let senderId :=
    match certificate with
    | Some c =>
        if negb (Js.truthy senderId) then
          if bool_decide (Some (Certificate.device_id c) = Tx.sender_device_id tx)
          then Some (Certificate.user_id c)
          else senderId
        else senderId
    | None => senderId
    end in
  if negb (Js.truthy senderId) then Tx.sender_device_id tx else senderId.

(** [tx.receiver_user_id || tx.receiver_device_id || 'unknown'] *)
Definition receiverId (tx : Tx.t) : string :=
  Js.or_lit (Js.or (Tx.receiver_user_id tx) (Tx.receiver_device_id tx)) "unknown".

(** The row handed to [from('transactions').insert]. *)
Definition txRow (certificate : option Certificate.t) (tx : Tx.t) : TxRow.t :=
  {| TxRow.id := Tx.transaction_id tx;
     TxRow.sender_id := senderId certificate tx;
     TxRow.receiver_id := receiverId tx;
     TxRow.amount := Tx.amount tx;
     TxRow.signature := Tx.sender_signature tx;
     TxRow.payload := tx |}.

(** The two branches of [if (receiver) { update } else { insert }]. *)
Definition updateOrCreate (receiverId : string) (amount : Z)
    (receiver : option User.t) : Async () :=
  match receiver with
  | Some receiver =>
      let newBalance := Js.or0 (User.balance receiver) + amount in
      _ ← Supabase.update_balance receiverId newBalance;
      mret ()
  | None =>
      _ ← Supabase.insert_user
            {| User.id := receiverId; User.balance := amount;
               User.public_key := "PENDING_INITIALIZATION" |};
      mret ()
  end.

(** "Increment receiver's balance": fetch, then update or create. *)
Definition creditReceiver (receiverId : string) (amount : Z) : Async () :=
  if Js.truthy_str receiverId && negb (String.eqb receiverId "unknown") then
    r ← Supabase.select_user receiverId;
    match error r with
    | Some fetchReceiverError =>
        if negb (String.eqb (code fetchReceiverError) "PGRST116")
        then throw (ExnPg fetchReceiverError)
        else updateOrCreate receiverId amount (data r)
    | None => updateOrCreate receiverId amount (data r)
    end
  else mret ().

(** The final balance fetch; its error is not looked at. *)
Definition finalBalance (syncingUserId : string) : Async Z :=
  r ← Supabase.select_user syncingUserId;
  mret (match data r with Some finalUser => User.balance finalUser | None => 0 end).

(** [certificate ? certificate.user_id : user_id] *)
Definition syncingUserId (req : SyncReq.t) : string :=
  match SyncReq.certificate req with
  | Some c => Certificate.user_id c
  | None => default "" (SyncReq.user_id req)
  end.

(** ** POST /sync, the handler that issues a change certificate *)

Module Change.

(** One iteration of [for (const tx of transactions)]; the loop's local
    variables are [(results, totalSpent)]. *)
Definition processTx (certificate : option Certificate.t)
    (locals : list string * Z) (tx : Tx.t) : Async (list string * Z) :=
  let '(results, totalSpent) := locals in
  let totalSpent := totalSpent + Tx.amount tx in
  let results := (results ++ [Tx.transaction_id tx])%list in
  r ← Supabase.select_transaction (Tx.transaction_id tx);
  match error r with
  | Some checkError => throw (ExnPg checkError)
  | None =>
      if bool_decide (is_Some (data r)) then mret (results, totalSpent)   (* continue *)
      else if negb (Js.truthy (Tx.sender_signature tx))
      then mret (results, totalSpent)                                      (* continue *)
      else
        ins ← Supabase.insert_transaction (txRow certificate tx);
        match error ins with
        | Some insertTxError => throw (ExnPg insertTxError)
        | None =>
            _ ← creditReceiver (receiverId tx) (Tx.amount tx);
            mret (results, totalSpent)
        end
  end.

(** Step 3, "Handle Unspent Portion (Keep the Change)". *)
Definition newCertificate (cs : CryptoService.t) (amb : Ambient)
    (certificate : option Certificate.t) (totalSpent : Z) : option Certificate.t :=
  match certificate with
  | None => None
  | Some c =>
      let unspent := Certificate.tip_wallet_balance c - totalSpent in
      if bool_decide (unspent > 0) then
        let timestamp := now_iso amb in
        let nonce := fresh_nonce amb in
        let expiration := expiry_iso amb in
        let certData :=
          Js.join "|" [Certificate.user_id c; Certificate.device_id c;
                       Js.of_number unspent; timestamp; nonce; expiration] in
        let signature := CryptoService.sign cs certData in
        Some {| Certificate.user_id := Certificate.user_id c;
                Certificate.device_id := Certificate.device_id c;
                Certificate.tip_wallet_balance := unspent;
                Certificate.timestamp := timestamp;
                Certificate.nonce := nonce;
                Certificate.expiration := expiration;
                Certificate.signature := signature |}
      else None
  end.

(** The [try] block after the certificate check. *)
Definition reconcile (cs : CryptoService.t) (amb : Ambient) (req : SyncReq.t)
    (txs : list Tx.t) : Async SyncBody.t :=
  '(results, totalSpent) ← for_of (processTx (SyncReq.certificate req)) txs ([], 0);
  let newCertificate := newCertificate cs amb (SyncReq.certificate req) totalSpent in
  balance ← finalBalance (syncingUserId req);
  mret {| SyncBody.processed := results;
          SyncBody.new_certificate := newCertificate;
          SyncBody.refunded := None;
          SyncBody.total_spent := totalSpent;
          SyncBody.balance := balance |}.

Definition post_sync (cs : CryptoService.t) (amb : Ambient) (req : SyncReq.t)
    (db : Db) : Db * Response SyncBody.t :=
  match SyncReq.transactions req with
  | None => (db, Status 400 "Missing transactions")
  | Some txs =>
      if negb (bool_decide (is_Some (SyncReq.certificate req)))
         && negb (Js.truthy (SyncReq.user_id req))
      then (db, Status 400 "Missing user identification (certificate or user_id)")
      else
        match checkCertificate cs (SyncReq.certificate req) with
        | inl _ => (db, Status 500 "Sync failed")
        | inr false => (db, Status 401 "Invalid certificate")
        | inr true =>
            match reconcile cs amb req txs db with
            | (db', inl _) => (db', Status 500 "Sync failed")
            | (db', inr body) => (db', Json body)
            end
        end
  end.

End Change.

(** ** POST /sync, the handler that refunds the unspent remainder *)

Module Refund.

(** One iteration of the loop.  The source tests [!tx.sender_signature]
    twice in a row; the second test is never reached with a falsy signature
    and is not repeated here. *)
Definition processTx (certificate : option Certificate.t)
    (locals : list string * Z) (tx : Tx.t) : Async (list string * Z) :=
  let '(results, totalSpent) := locals in
  r ← Supabase.select_transaction (Tx.transaction_id tx);
  match error r with
  | Some checkError => throw (ExnPg checkError)
  | None =>
      if bool_decide (is_Some (data r)) then mret (results, totalSpent)   (* continue *)
      else if negb (Js.truthy (Tx.sender_signature tx))
      then mret ((results ++ [Tx.transaction_id tx])%list, totalSpent)           (* continue *)
      else
        ins ← Supabase.insert_transaction (txRow certificate tx);
        match error ins with
        | Some insertTxError => throw (ExnPg insertTxError)
        | None =>
            _ ← creditReceiver (receiverId tx) (Tx.amount tx);
            mret ((results ++ [Tx.transaction_id tx])%list, totalSpent + Tx.amount tx)
        end
  end.

(** Step 3, "Refund Unspent Portion of the Certificate"; returns [unspent]. *)
Definition refundUnspent (certificate : option Certificate.t) (totalSpent : Z) : Async Z :=
  match certificate with
  | None => mret 0
  | Some c =>
      let unspent := Certificate.tip_wallet_balance c - totalSpent in
      if bool_decide (unspent > 0) then
        r ← Supabase.select_user (Certificate.user_id c);
        match error r, data r with
        | Some fetchUserError, _ => throw (ExnPg fetchUserError)
        | None, None => throw ExnJs   (* [user.balance] of null *)
        | None, Some user =>
            let newBalance := Js.or0 (User.balance user) + unspent in
            _ ← Supabase.update_balance (Certificate.user_id c) newBalance;
            mret unspent
        end
      else mret unspent
  end.

Definition reconcile (req : SyncReq.t) (txs : list Tx.t) : Async SyncBody.t :=
  '(results, totalSpent) ← for_of (processTx (SyncReq.certificate req)) txs ([], 0);
  unspent ← refundUnspent (SyncReq.certificate req) totalSpent;
  balance ← finalBalance (syncingUserId req);
  mret {| SyncBody.processed := results;
          SyncBody.new_certificate := None;
          SyncBody.refunded := Some unspent;
          SyncBody.total_spent := totalSpent;
          SyncBody.balance := balance |}.

Definition post_sync (cs : CryptoService.t) (req : SyncReq.t)
    (db : Db) : Db * Response SyncBody.t :=
  match SyncReq.transactions req with
  | None => (db, Status 400 "Missing transactions")
  | Some txs =>
      if negb (bool_decide (is_Some (SyncReq.certificate req)))
         && negb (Js.truthy (SyncReq.user_id req))
      then (db, Status 400 "Missing user identification (certificate or user_id)")
      else
        match checkCertificate cs (SyncReq.certificate req) with
        | inl _ => (db, Status 500 "Sync failed")
        | inr false => (db, Status 401 "Invalid certificate")
        | inr true =>
            match reconcile req txs db with
            | (db', inl _) => (db', Status 500 "Sync failed")
            | (db', inr body) => (db', Json body)
            end
        end
  end.

End Refund.

(** ** routes/walletRoutes.ts, POST /certificate *)

Module Wallet.

Module CertReq.
Record t := mk {
  user_id : option string;
  device_id : option string;
  amount : option Z             (* [None]: undefined *)
}.
End CertReq.

Definition post_certificate (cs : CryptoService.t) (amb : Ambient) (req : CertReq.t)
    (db : Db) : Db * Response Certificate.t :=
  match CertReq.user_id req, CertReq.device_id req, CertReq.amount req with
  | Some (String a u), Some (String b d), Some amount =>
      let user_id := String a u in
      let device_id := String b d in
      match Supabase.select_user user_id db with
      | (db, inl _) => (db, Status 500 "Failed to generate certificate")
      | (db, inr r) =>
          match error r, data r with
          | None, Some user =>
              if bool_decide (User.balance user < amount)
              then (db, Status 400 "Insufficient balance on server")
              else
                let newBalance := User.balance user - amount in
                match Supabase.update_balance user_id newBalance db with
                | (db, inl _) => (db, Status 500 "Failed to generate certificate")
                | (db, inr upd) =>
                    match error upd with
                    | Some _ => (db, Status 500 "Failed to generate certificate")
                    | None =>
                        let timestamp := now_iso amb in
                        let nonce := fresh_nonce amb in
                        let expiration := expiry_iso amb in
                        let dataToSign :=
                          Js.join "|" [User.id user; device_id; Js.of_number amount;
                                       timestamp; nonce; expiration] in
                        let signature := CryptoService.sign cs dataToSign in
                        (db, Json {| Certificate.user_id := User.id user;
                                     Certificate.device_id := device_id;
                                     Certificate.tip_wallet_balance := amount;
                                     Certificate.timestamp := timestamp;
                                     Certificate.nonce := nonce;
                                     Certificate.expiration := expiration;
                                     Certificate.signature := signature |})
                    end
                end
          | _, _ => (db, Status 404 "User not found")
          end
      end
  | _, _, _ => (db, Status 400 "Missing parameters")
  end.

End Wallet.

(** ** Vocabulary of the properties *)

(** The store after [creditReceiver]. *)
Definition credit (receiverId : string) (amount : Z) (db : Db) : Db :=
  if Js.truthy_str receiverId && negb (String.eqb receiverId "unknown") then
    match users db !! receiverId with
    | Some receiver =>
        mkDb (alter (λ u, User.mk (User.id u) (Js.or0 (User.balance receiver) + amount)
                            (User.public_key u)) receiverId (users db))
             (transactions db)
    | None =>
        mkDb (<[receiverId := User.mk receiverId amount "PENDING_INITIALIZATION"]> (users db))
             (transactions db)
    end
  else db.

(** A transaction the loop will not record: its id is stored already, or it
    carries no sender signature. *)
Definition skipped (db : Db) (tx : Tx.t) : bool :=
  bool_decide (is_Some (transactions db !! Tx.transaction_id tx))
  || negb (Js.truthy (Tx.sender_signature tx)).

(** The store after one iteration (the same in both handlers). *)
Definition step (certificate : option Certificate.t) (db : Db) (tx : Tx.t) : Db :=
  if skipped db tx then db
  else credit (receiverId tx) (Tx.amount tx)
         (mkDb (users db) (<[Tx.transaction_id tx := txRow certificate tx]> (transactions db))).

(** The store after the whole loop. *)
Definition replay (certificate : option Certificate.t) (txs : list Tx.t) (db : Db) : Db :=
  foldl (step certificate) db txs.

(** The loop variables of the refund handler after one iteration. *)
Definition Refund_locals (db : Db) (locals : list string * Z) (tx : Tx.t) : list string * Z :=
  if bool_decide (is_Some (transactions db !! Tx.transaction_id tx)) then locals
  else if negb (Js.truthy (Tx.sender_signature tx))
  then ((locals.1 ++ [Tx.transaction_id tx])%list, locals.2)
  else ((locals.1 ++ [Tx.transaction_id tx])%list, locals.2 + Tx.amount tx).

(** The loop variables of the refund handler after the whole loop. *)
Fixpoint Refund_loop_locals (certificate : option Certificate.t) (txs : list Tx.t)
    (locals : list string * Z) (db : Db) : list string * Z :=
  match txs with
  | [] => locals
  | tx :: rest =>
      Refund_loop_locals certificate rest (Refund_locals db locals tx) (step certificate db tx)
  end.

(** The request names the syncing user. *)
Definition identified (req : SyncReq.t) : bool :=
  bool_decide (is_Some (SyncReq.certificate req)) || Js.truthy (SyncReq.user_id req).


(** [finalUser ? finalUser.balance : 0] against the store [db]. *)
Definition balance_of (db : Db) (id : string) : Z :=
  match users db !! id with
  | Some finalUser => User.balance finalUser
  | None => 0
  end.

(** No balance went down from [db] to [db']: every user of [db] still has a
    row in [db'], with at least the balance they had, and a user who has a
    row only in [db'] has a balance of at least zero there. *)
Definition balances_le (db db' : Db) : Prop :=
  ∀ id,
    (is_Some (users db !! id) → is_Some (users db' !! id)) ∧
    balance_of db id ≤ balance_of db' id.

(** The transactions the refund handler's loop records, in order: those
    whose id is not stored when their turn comes and that carry a sender
    signature. *)
Fixpoint Refund_counted (certificate : option Certificate.t) (txs : list Tx.t)
    (db : Db) : list Tx.t :=
  match txs with
  | [] => []
  | tx :: rest =>
      let counted :=
        Refund_counted certificate rest (Refund.processTx certificate ([], 0) tx db).1 in
      if skipped db tx then counted else tx :: counted
  end.


(** The certificate carries the server's signature of its own canonical
    string. *)
Definition server_signed (cs : CryptoService.t) (c : Certificate.t) : Prop :=
  Certificate.signature c = CryptoService.sign cs (certToVerify c).

(** ** A concrete signing service for worked examples

    Text and bytes are converted by the Standard Library's functions, the
    "base64" text of a byte string is the string with those bytes, and the
    signature of a message under the key [k] is the message followed by
    [k]; the public key is [k] as well. *)

Module Fixture.

Definition nacl : NaclLib :=
  {| decodeUTF8 := Strings.String.list_byte_of_string;
     encodeBase64 := Strings.String.string_of_list_byte;
     decodeBase64 := λ s, Some (Strings.String.list_byte_of_string s);
     sign_detached := λ m sk, (m ++ sk)%list;
     sign_detached_verify := λ m sig pk, Some (bool_decide (sig = (m ++ pk)%list)) |}.

Definition key : list Byte.byte := Strings.String.list_byte_of_string "k".

Definition cs : CryptoService.t :=
  {| CryptoService.nacl := nacl;
     CryptoService.keyPair := {| publicKey := key; secretKey := key |} |}.

Definition amb : Ambient :=
  {| now_iso := "2024-01-01T00:00:00.000Z";
     fresh_nonce := "424242";
     expiry_iso := "2024-01-31T00:00:00.000Z" |}.

(** A certificate signed by [cs] for [balance] units. *)
Definition cert (user device : string) (balance : Z) : Certificate.t :=
  {| Certificate.user_id := user;
     Certificate.device_id := device;
     Certificate.tip_wallet_balance := balance;
     Certificate.timestamp := "2023-12-31T00:00:00.000Z";
     Certificate.nonce := "abc";
     Certificate.expiration := "2024-01-01T00:00:00.000Z";
     Certificate.signature :=
       CryptoService.sign cs
         (canonical user device balance "2023-12-31T00:00:00.000Z" "abc"
            "2024-01-01T00:00:00.000Z") |}.

(** A signed transfer of [amount] to the user [receiver]. *)
Definition transfer (id device receiver : string) (amount : Z) : Tx.t :=
  {| Tx.transaction_id := id;
     Tx.sender_user_id := None;
     Tx.sender_device_id := Some device;
     Tx.receiver_user_id := Some receiver;
     Tx.receiver_device_id := None;
     Tx.amount := amount;
     Tx.sender_signature := Some "sig" |}.

Definition user (id : string) (balance : Z) : User.t :=
  {| User.id := id; User.balance := balance; User.public_key := "pk" |}.

Definition empty : Db := {| users := ∅; transactions := ∅ |}.

(** Alice holds 5 online and a certificate for 100 on device "dev1". *)
Definition alice_db : Db :=
  {| users := {[ "alice" := user "alice" 5 ]}; transactions := ∅ |}.

Definition alice_cert : Certificate.t := cert "alice" "dev1" 100.

Definition pay_bob : Tx.t := transfer "t1" "dev1" "bob" 60.

(** Alice syncs one transfer of 60 to Bob. *)
Definition spend60 : SyncReq.t :=
  {| SyncReq.certificate := Some alice_cert;
     SyncReq.transactions := Some [pay_bob];
     SyncReq.user_id := None |}.

(** The store once the transfer "t1" has been recorded. *)
Definition recorded_db : Db :=
  {| users := {[ "alice" := user "alice" 5;
                 "bob" := User.mk "bob" 60 "PENDING_INITIALIZATION" ]};
     transactions := {[ "t1" := txRow (Some alice_cert) pay_bob ]} |}.



(** A user the store has never seen syncs an empty batch. *)
Definition ghost : SyncReq.t :=
  {| SyncReq.certificate := None;
     SyncReq.transactions := Some [];
     SyncReq.user_id := Some "ghost" |}.

(** Alice asks for a certificate of 3 out of her 5. *)
Definition load3 : Wallet.CertReq.t :=
  {| Wallet.CertReq.user_id := Some "alice";
     Wallet.CertReq.device_id := Some "dev1";
     Wallet.CertReq.amount := Some 3 |}.

End Fixture.

(** ** routes/walletRoutes.ts: POST /initialize, GET /balance/:userId, POST /fund *)

(** The query-builder calls that end in [.select()]: they resolve to the
    rows they wrote. *)
Module Returning.

(** [from('users').insert(row).select().single()] *)
Definition insert_user (row : User.t) : Async (PgResult User.t) :=
  λ db,
    match users db !! User.id row with
    | Some _ => (db, inr (mkPgResult None (Some unique_violation)))
    | None =>
        (mkDb (<[User.id row := row]> (users db)) (transactions db),
         inr (mkPgResult (Some row) None))
    end.

(** [from('users').update({ balance }).eq('id', id).select().single()] *)
Definition update_balance (id : string) (newBalance : Z) : Async (PgResult User.t) :=
  λ db,
    let db' :=
      mkDb (alter (λ u, User.mk (User.id u) newBalance (User.public_key u)) id (users db))
           (transactions db) in
    match users db' !! id with
    | Some updated => (db', inr (mkPgResult (Some updated) None))
    | None => (db', inr (mkPgResult None (Some PGRST116)))
    end.

(** [from('users').upsert({ id, public_key }).select()].  On a conflict the
    two given columns are written and [balance] is kept; a new row takes the
    default of the [balance] column, which the repository does not declare
    and is a parameter here. *)
Definition upsert_public_key (default_balance : Z) (id public_key : string)
    : Async (PgResult (list User.t)) :=
  λ db,
    let row :=
      match users db !! id with
      | Some existing => User.mk id (User.balance existing) public_key
      | None => User.mk id default_balance public_key
      end in
    (mkDb (<[id := row]> (users db)) (transactions db),
     inr (mkPgResult (Some [row]) None)).

End Returning.

Module Account.

Module InitReq.
Record t := mk {
  user_id : option string;
  public_key : option string
}.
End InitReq.

Module FundReq.
Record t := mk {
  user_id : option string;
  amount : option Z               (* [None]: undefined *)
}.
End FundReq.

(** POST /initialize *)
Definition post_initialize (default_balance : Z) (req : InitReq.t)
    (db : Db) : Db * Response () :=
  match InitReq.user_id req, InitReq.public_key req with
  | Some (String a u), Some (String b k) =>
      let user_id := String a u in
      let public_key := String b k in
      match Returning.upsert_public_key default_balance user_id public_key db with
      | (db, inl _) => (db, Status 500 "Failed to initialize wallet")
      | (db, inr r) =>
          match error r with
          | Some _ => (db, Status 500 "Failed to initialize wallet")
          | None => (db, Json ())
          end
      end
  | _, _ => (db, Status 400 "Missing parameters")
  end.

(** The [try] block of GET /balance/:userId. *)
Definition fetch_balance (userId : string) : Async Z :=
  r ← Supabase.select_user userId;
  match error r with
  | Some fetchError =>
      if String.eqb (code fetchError) "PGRST116" then
        ins ← Returning.insert_user
                {| User.id := userId; User.balance := 0;
                   User.public_key := "PENDING_INITIALIZATION" |};
        match error ins with
        | Some insertError => throw (ExnPg insertError)
        | None =>
            match data ins with
            | Some newUser => mret (User.balance newUser)
            | None => throw ExnJs         (* [user.balance] of null *)
            end
        end
      else throw (ExnPg fetchError)
  | None =>
      match data r with
      | Some user => mret (User.balance user)
      | None => throw ExnJs               (* [user.balance] of null *)
      end
  end.

(** GET /balance/:userId; the body is [{ balance }]. *)
Definition get_balance (userId : string) (db : Db) : Db * Response Z :=
  match fetch_balance userId db with
  | (db', inl _) => (db', Status 500 "Failed to fetch balance")
  | (db', inr balance) => (db', Json balance)
  end.

(** The [try] block of POST /fund. *)
Definition fund (user_id : string) (amount : Z) : Async Z :=
  r ← Supabase.select_user user_id;
  match error r with
  | Some fetchError =>
      if String.eqb (code fetchError) "PGRST116" then
        ins ← Returning.insert_user
                {| User.id := user_id; User.balance := amount;
                   User.public_key := "PENDING_INITIALIZATION" |};
        match error ins with
        | Some insertError => throw (ExnPg insertError)
        | None =>
            match data ins with
            | Some newUser => mret (User.balance newUser)
            | None => throw ExnJs
            end
        end
      else throw (ExnPg fetchError)
  | None =>
      match data r with
      | Some user =>
          let newBalance := Js.or0 (User.balance user) + amount in
          upd ← Returning.update_balance user_id newBalance;
          match error upd with
          | Some updateError => throw (ExnPg updateError)
          | None =>
              match data upd with
              | Some updatedUser => mret (User.balance updatedUser)
              | None => throw ExnJs
              end
          end
      | None => throw ExnJs
      end
  end.

(** POST /fund; the body is [{ balance }]. *)
Definition post_fund (req : FundReq.t) (db : Db) : Db * Response Z :=
  match FundReq.user_id req, FundReq.amount req with
  | Some (String a u), Some amount =>
      match fund (String a u) amount db with
      | (db', inl _) => (db', Status 500 "Failed to fund wallet")
      | (db', inr balance) => (db', Json balance)
      end
  | _, _ => (db, Status 400 "Missing parameters")
  end.

End Account.

(** ** Vocabulary of the further properties *)

(** Every row sits under its own [id]. *)
Definition keyed_by_id (db : Db) : Prop :=
  (∀ k u, users db !! k = Some u → User.id u = k) ∧
  (∀ k r, transactions db !! k = Some r → TxRow.id r = k).

(** No stored balance is negative. *)
Definition solvent (db : Db) : Prop :=
  ∀ k u, users db !! k = Some u → 0 ≤ User.balance u.



(** The string holds no '|'. *)
Fixpoint delimiter_free (s : string) : bool :=
  match s with
  | EmptyString => true
  | String a rest => negb (Ascii.eqb a "|"%char) && delimiter_free rest
  end.

(** The four text fields a client can choose hold no '|'. *)
Definition delimiter_free_fields (c : Certificate.t) : Prop :=
  delimiter_free (Certificate.user_id c) = true ∧
  delimiter_free (Certificate.device_id c) = true ∧
  delimiter_free (Certificate.timestamp c) = true ∧
  delimiter_free (Certificate.nonce c) = true.

(** A sync request with the same fields and another batch. *)
Definition with_transactions (req : SyncReq.t) (txs : list Tx.t) : SyncReq.t :=
  {| SyncReq.certificate := SyncReq.certificate req;
     SyncReq.transactions := Some txs;
     SyncReq.user_id := SyncReq.user_id req |}.

(** A sync request that presents [c] with the batch [txs]. *)
Definition presenting (c : Certificate.t) (txs : list Tx.t) : SyncReq.t :=
  {| SyncReq.certificate := Some c;
     SyncReq.transactions := Some txs;
     SyncReq.user_id := None |}.

(** [db'] has every user of [db], under the same id and with the same
    public key. *)
Definition same_identities (db db' : Db) : Prop :=
  ∀ id u, users db !! id = Some u →
    ∃ u', users db' !! id = Some u' ∧
          User.id u' = User.id u ∧ User.public_key u' = User.public_key u.

(** ** Further worked examples *)

Module Scenario.

(** A transfer of 25 to Bob without a sender signature. *)
Definition unsigned_pay : Tx.t :=
  {| Tx.transaction_id := "t2";
     Tx.sender_user_id := None;
     Tx.sender_device_id := Some "dev1";
     Tx.receiver_user_id := Some "bob";
     Tx.receiver_device_id := None;
     Tx.amount := 25;
     Tx.sender_signature := None |}.

(** A valid certificate for 100 of Carol, who has no row. *)
Definition carol_cert : Certificate.t := Fixture.cert "carol" "dev9" 100.

(** Alice syncs under her user id, without a certificate. *)
Definition online : SyncReq.t :=
  {| SyncReq.certificate := None;
     SyncReq.transactions := Some [Fixture.pay_bob];
     SyncReq.user_id := Some "alice" |}.

(** Alice adds 10 to her online balance. *)
Definition fund_alice : Account.FundReq.t :=
  {| Account.FundReq.user_id := Some "alice"; Account.FundReq.amount := Some 10 |}.

Definition register_alice : Account.InitReq.t :=
  {| Account.InitReq.user_id := Some "alice";
     Account.InitReq.public_key := Some "alice-key" |}.

End Scenario.

(** * Properties *)

(** ** The example service obeys the laws *)

Global Instance Fixture_laws : NaclLaws Fixture.cs.
Proof.
  split; simpl.
  - intros b. by rewrite Strings.String.list_byte_of_string_of_list_byte.
  - intros s s' H.
    rewrite <- (Strings.String.string_of_list_byte_of_string s).
    rewrite <- (Strings.String.string_of_list_byte_of_string s').
    by rewrite H.
  - intros m. by rewrite bool_decide_eq_true_2.
  - intros m m' Hne. rewrite bool_decide_eq_false_2; [done|].
    intros H. by apply app_inv_tail in H.
Qed.

(** ** What one loop iteration does to the store *)

Ltac unfold_async :=
  unfold mbind, mret, Async_bind, Async_ret, throw,
    Supabase.select_transaction, Supabase.insert_transaction,
    Supabase.select_user, Supabase.update_balance, Supabase.insert_user in *.

Lemma creditReceiver_eq receiverId amount db :
  creditReceiver receiverId amount db = (credit receiverId amount db, inr ()).
Proof.
  unfold creditReceiver, credit, updateOrCreate.
  destruct (Js.truthy_str receiverId && negb (String.eqb receiverId "unknown")); [|done].
  unfold_async.
  destruct (users db !! receiverId) as [u|] eqn:Hu; simpl; [done|].
  by rewrite Hu.
Qed.

Lemma is_Some_row_id (o : option TxRow.t) :
  bool_decide (is_Some (TxRow.id <$> o)) = bool_decide (is_Some o).
Proof. apply bool_decide_ext. by rewrite fmap_is_Some. Qed.

Lemma Change_processTx_eq certificate results totalSpent tx db :
  Change.processTx certificate (results, totalSpent) tx db =
  (step certificate db tx,
   inr ((results ++ [Tx.transaction_id tx])%list, totalSpent + Tx.amount tx)).
Proof.
  unfold Change.processTx, step, skipped.
  unfold mbind at 1, Async_bind, Supabase.select_transaction. simpl.
  rewrite is_Some_row_id.
  destruct (transactions db !! Tx.transaction_id tx) as [row|] eqn:Hrow.
  { by rewrite bool_decide_eq_true_2. }
  rewrite bool_decide_eq_false_2 by (by intros [? ?]). simpl.
  destruct (Js.truthy (Tx.sender_signature tx)); simpl; [|done].
  unfold mbind, Async_bind, Supabase.insert_transaction. simpl. rewrite Hrow. simpl.
  by rewrite creditReceiver_eq.
Qed.

Lemma Refund_processTx_eq certificate locals tx db :
  Refund.processTx certificate locals tx db =
  (step certificate db tx, inr (Refund_locals db locals tx)).
Proof.
  destruct locals as [results totalSpent].
  unfold Refund.processTx, Refund_locals, step, skipped.
  unfold mbind at 1, Async_bind, Supabase.select_transaction. simpl.
  rewrite is_Some_row_id.
  destruct (transactions db !! Tx.transaction_id tx) as [row|] eqn:Hrow.
  { by rewrite bool_decide_eq_true_2. }
  rewrite bool_decide_eq_false_2 by (by intros [? ?]). simpl.
  destruct (Js.truthy (Tx.sender_signature tx)); simpl; [|done].
  unfold mbind, Async_bind, Supabase.insert_transaction. simpl. rewrite Hrow. simpl.
  by rewrite creditReceiver_eq.
Qed.

Lemma for_of_nil {A S : Type} (body : S → A → Async S) s db :
  for_of body [] s db = (db, inr s).
Proof. reflexivity. Qed.

Lemma for_of_cons {A S : Type} (body : S → A → Async S) x rest s db :
  for_of body (x :: rest) s db =
  match body s x db with
  | (db', inl e) => (db', inl e)
  | (db', inr s') => for_of body rest s' db'
  end.
Proof. reflexivity. Qed.

(** The loop of the change handler never throws: it lists every id and adds
    up every amount. *)
Lemma Change_loop_eq certificate txs results totalSpent db :
  for_of (Change.processTx certificate) txs (results, totalSpent) db =
  (replay certificate txs db,
   inr ((results ++ (Tx.transaction_id <$> txs))%list,
        totalSpent + foldr Z.add 0 (Tx.amount <$> txs))).
Proof.
  revert results totalSpent db.
  induction txs as [|tx txs IH]; intros results totalSpent db.
  - rewrite for_of_nil. simpl. by rewrite app_nil_r, Z.add_0_r.
  - rewrite for_of_cons, Change_processTx_eq, IH. unfold replay. simpl.
    by rewrite <- app_assoc, Z.add_assoc.
Qed.

Lemma Refund_loop_eq certificate txs locals db :
  for_of (Refund.processTx certificate) txs locals db =
  (replay certificate txs db, inr (Refund_loop_locals certificate txs locals db)).
Proof.
  revert locals db.
  induction txs as [|tx txs IH]; intros locals db.
  - by rewrite for_of_nil.
  - by rewrite for_of_cons, Refund_processTx_eq, IH.
Qed.

Lemma finalBalance_eq syncingUserId db :
  finalBalance syncingUserId db =
  (db, inr (match users db !! syncingUserId with
            | Some finalUser => User.balance finalUser
            | None => 0
            end)).
Proof.
  unfold finalBalance. unfold_async.
  by destruct (users db !! syncingUserId).
Qed.

(** The change handler answers every well-formed request whose certificate
    check passes with status 200, and this is the body. *)
Lemma Change_post_sync_eq cs amb req txs db :
  SyncReq.transactions req = Some txs →
  identified req = true →
  checkCertificate cs (SyncReq.certificate req) = inr true →
  Change.post_sync cs amb req db =
  (replay (SyncReq.certificate req) txs db,
   Json {| SyncBody.processed := Tx.transaction_id <$> txs;
           SyncBody.new_certificate :=
             Change.newCertificate cs amb (SyncReq.certificate req)
               (foldr Z.add 0 (Tx.amount <$> txs));
           SyncBody.refunded := None;
           SyncBody.total_spent := foldr Z.add 0 (Tx.amount <$> txs);
           SyncBody.balance :=
             match users (replay (SyncReq.certificate req) txs db) !! syncingUserId req with
             | Some finalUser => User.balance finalUser
             | None => 0
             end |}).
Proof.
  intros Htxs Hid Hcheck. unfold Change.post_sync, identified in *.
  rewrite Htxs, Hcheck.
  destruct (bool_decide _); destruct (Js.truthy _); simpl in *; try done.
  all: unfold Change.reconcile; unfold mbind at 1; unfold Async_bind;
    rewrite Change_loop_eq; unfold mbind, Async_bind;
    by rewrite finalBalance_eq.
Qed.

(** ** C8: an invalid certificate is turned away before the store is used *)


(** When the signature library throws on the certificate (a malformed
    signature string), the [catch] block answers 500 and the store is
    untouched as well. *)
Lemma certificate_check_throws cs amb req c txs db :
  SyncReq.certificate req = Some c →
  SyncReq.transactions req = Some txs →
  isCertValid cs c = None →
  Change.post_sync cs amb req db = (db, Status 500 "Sync failed") ∧
  Refund.post_sync cs req db = (db, Status 500 "Sync failed").
Proof.
  intros Hc Htxs Hthrow.
  unfold Change.post_sync, Refund.post_sync, checkCertificate.
  rewrite Htxs, Hc, Hthrow. simpl. done.
Qed.

(** ** The sender id computed by the loop *)


(** ** The store a handler leaves behind *)

Lemma Refund_reconcile_store req txs db :
  (Refund.reconcile req txs db).1 =
  (Refund.refundUnspent (SyncReq.certificate req)
     (Refund_loop_locals (SyncReq.certificate req) txs ([], 0) db).2
     (replay (SyncReq.certificate req) txs db)).1.
Proof.
  unfold Refund.reconcile. unfold mbind at 1. unfold Async_bind.
  rewrite Refund_loop_eq.
  destruct (Refund_loop_locals _ _ _ _) as [results totalSpent]. simpl.
  unfold mbind at 1. unfold Async_bind.
  destruct (Refund.refundUnspent _ _ _) as [db2 [e|unspent]]; [done|].
  unfold mbind, Async_bind. by rewrite finalBalance_eq.
Qed.

Lemma Change_post_sync_store cs amb req db :
  (Change.post_sync cs amb req db).1 = db ∨
  ∃ txs, SyncReq.transactions req = Some txs ∧
    (Change.post_sync cs amb req db).1 = replay (SyncReq.certificate req) txs db.
Proof.
  unfold Change.post_sync.
  destruct (SyncReq.transactions req) as [txs|]; [|by left].
  destruct (_ && _); [by left|].
  destruct (checkCertificate _ _) as [e|[|]]; [by left| |by left].
  right. exists txs. split; [done|].
  unfold Change.reconcile. unfold mbind at 1. unfold Async_bind.
  rewrite Change_loop_eq. unfold mbind, Async_bind. by rewrite finalBalance_eq.
Qed.

Lemma Refund_post_sync_store cs req db :
  (Refund.post_sync cs req db).1 = db ∨
  ∃ txs, SyncReq.transactions req = Some txs ∧
    (Refund.post_sync cs req db).1 = (Refund.reconcile req txs db).1.
Proof.
  unfold Refund.post_sync.
  destruct (SyncReq.transactions req) as [txs|]; [|by left].
  destruct (_ && _); [by left|].
  destruct (checkCertificate _ _) as [e|[|]]; [by left| |by left].
  right. exists txs. split; [done|].
  by destruct (Refund.reconcile req txs db) as [db' [e|body]].
Qed.

(** ** C10: balances only grow *)

Global Instance balances_le_refl : Reflexive balances_le.
Proof. intros db id. split; [done|lia]. Qed.

Global Instance balances_le_trans : Transitive balances_le.
Proof.
  intros db1 db2 db3 H12 H23 id.
  destruct (H12 id) as [Hrow12 Hle12]. destruct (H23 id) as [Hrow23 Hle23].
  split; [auto|lia].
Qed.

Lemma or0_id n : Js.or0 n = n.
Proof. unfold Js.or0. by case_decide. Qed.

Lemma credit_transactions receiverId amount db :
  transactions (credit receiverId amount db) = transactions db.
Proof.
  unfold credit. destruct (_ && _); [|done].
  by destruct (users db !! receiverId).
Qed.

(** Setting the balance of the stored user [holder] to a larger one. *)
Lemma raise_balances_le db holder user newBalance :
  users db !! holder = Some user →
  User.balance user ≤ newBalance →
  balances_le db
    (mkDb (alter (λ u, User.mk (User.id u) newBalance (User.public_key u)) holder (users db))
          (transactions db)).
Proof.
  intros Huser Hle id. unfold balance_of. cbn [users].
  destruct (decide (holder = id)) as [<-|Hne].
  - rewrite lookup_alter_eq, Huser. simpl. split; [by eauto|lia].
  - rewrite lookup_alter_ne by done. split; [done|]. destruct (users db !! id); lia.
Qed.

Lemma credit_balances_le receiverId amount db :
  0 ≤ amount → balances_le db (credit receiverId amount db).
Proof.
  intros Hamount. unfold credit.
  destruct (_ && _); [|reflexivity].
  destruct (users db !! receiverId) as [receiver|] eqn:Hr.
  - apply (raise_balances_le db receiverId receiver); [done|]. rewrite or0_id. lia.
  - intros id. unfold balance_of. cbn [users].
    destruct (decide (receiverId = id)) as [<-|Hne].
    + rewrite lookup_insert_eq, Hr. simpl. split; [by eauto|lia].
    + rewrite lookup_insert_ne by done. split; [done|]. destruct (users db !! id); lia.
Qed.

Lemma step_balances_le certificate db tx :
  0 ≤ Tx.amount tx → balances_le db (step certificate db tx).
Proof.
  intros Hamount. unfold step. destruct (skipped db tx); [reflexivity|].
  etrans; [|by apply credit_balances_le].
  intros id. split; [done|]. unfold balance_of. simpl. lia.
Qed.

Lemma replay_balances_le certificate txs db :
  Forall (λ tx, 0 ≤ Tx.amount tx) txs → balances_le db (replay certificate txs db).
Proof.
  intros Hall. revert db. induction Hall as [|tx txs Htx _ IH]; intros db.
  - reflexivity.
  - unfold replay. simpl. etrans; [by apply step_balances_le|]. apply IH.
Qed.

Lemma refundUnspent_balances_le certificate totalSpent db :
  balances_le db (Refund.refundUnspent certificate totalSpent db).1.
Proof.
  unfold Refund.refundUnspent. destruct certificate as [c|]; [|reflexivity].
  case_bool_decide as Hpos; [|reflexivity].
  unfold_async. destruct (users db !! Certificate.user_id c) as [user|] eqn:Huser; simpl;
    [|reflexivity].
  apply (raise_balances_le db (Certificate.user_id c) user); [done|]. rewrite or0_id. lia.
Qed.


(** ** The body of a successful answer *)

Lemma refundUnspent_eq certificate totalSpent db :
  Refund.refundUnspent certificate totalSpent db =
  match certificate with
  | None => (db, inr 0)
  | Some c =>
      let unspent := Certificate.tip_wallet_balance c - totalSpent in
      if bool_decide (unspent > 0) then
        match users db !! Certificate.user_id c with
        | Some user =>
            (mkDb (alter (λ u, User.mk (User.id u) (User.balance user + unspent)
                                 (User.public_key u))
                     (Certificate.user_id c) (users db))
                  (transactions db),
             inr unspent)
        | None => (db, inl (ExnPg PGRST116))
        end
      else (db, inr unspent)
  end.
Proof.
  unfold Refund.refundUnspent. destruct certificate as [c|]; [|done]. simpl.
  case_bool_decide; [|done]. unfold_async.
  destruct (users db !! Certificate.user_id c); simpl; [|done].
  by rewrite or0_id.
Qed.

Lemma refundUnspent_transactions certificate totalSpent db :
  transactions (Refund.refundUnspent certificate totalSpent db).1 = transactions db.
Proof.
  rewrite refundUnspent_eq. destruct certificate as [c|]; [|done]. simpl.
  case_bool_decide; [|done]. by destruct (users db !! _).
Qed.

Lemma refundUnspent_other_users certificate totalSpent db id :
  Some id ≠ (Certificate.user_id <$> certificate) →
  users (Refund.refundUnspent certificate totalSpent db).1 !! id = users db !! id.
Proof.
  intros Hne. rewrite refundUnspent_eq. destruct certificate as [c|]; [|done]. simpl.
  case_bool_decide; [|done]. destruct (users db !! Certificate.user_id c); [|done].
  simpl. apply lookup_alter_ne. simpl in Hne. congruence.
Qed.

Lemma Refund_post_sync_json cs req txs db db' body :
  SyncReq.transactions req = Some txs →
  Refund.post_sync cs req db = (db', Json body) →
  ∃ unspent,
    Refund.refundUnspent (SyncReq.certificate req)
      (Refund_loop_locals (SyncReq.certificate req) txs ([], 0) db).2
      (replay (SyncReq.certificate req) txs db) = (db', inr unspent) ∧
    body =
      {| SyncBody.processed := (Refund_loop_locals (SyncReq.certificate req) txs ([], 0) db).1;
         SyncBody.new_certificate := None;
         SyncBody.refunded := Some unspent;
         SyncBody.total_spent := (Refund_loop_locals (SyncReq.certificate req) txs ([], 0) db).2;
         SyncBody.balance := balance_of db' (syncingUserId req) |}.
Proof.
  intros Htxs. unfold Refund.post_sync. rewrite Htxs.
  destruct (_ && _); [done|].
  destruct (checkCertificate _ _) as [e|[|]]; [done| |done].
  unfold Refund.reconcile. unfold mbind at 1. unfold Async_bind.
  rewrite Refund_loop_eq.
  destruct (Refund_loop_locals _ _ _ _) as [results totalSpent]. simpl.
  unfold mbind at 1. unfold Async_bind.
  destruct (Refund.refundUnspent _ _ _) as [db2 [e|unspent]]; [done|].
  unfold mbind, Async_bind. rewrite finalBalance_eq.
  unfold mret, Async_ret. intros [= <- <-]. by exists unspent.
Qed.

Lemma Change_post_sync_json cs amb req txs db db' body :
  SyncReq.transactions req = Some txs →
  Change.post_sync cs amb req db = (db', Json body) →
  db' = replay (SyncReq.certificate req) txs db ∧
  body =
    {| SyncBody.processed := Tx.transaction_id <$> txs;
       SyncBody.new_certificate :=
         Change.newCertificate cs amb (SyncReq.certificate req)
           (foldr Z.add 0 (Tx.amount <$> txs));
       SyncBody.refunded := None;
       SyncBody.total_spent := foldr Z.add 0 (Tx.amount <$> txs);
       SyncBody.balance := balance_of db' (syncingUserId req) |}.
Proof.
  intros Htxs Hrun.
  assert (identified req = true ∧ checkCertificate cs (SyncReq.certificate req) = inr true)
    as [Hid Hcheck].
  { unfold Change.post_sync, identified in *. rewrite Htxs in Hrun.
    destruct (bool_decide _); destruct (Js.truthy _); simpl in *; try done;
      by destruct (checkCertificate _ _) as [e|[|]]. }
  rewrite (Change_post_sync_eq cs amb req txs db Htxs Hid Hcheck) in Hrun.
  by injection Hrun as <- <-.
Qed.

(** ** C9: the balance of the answer *)

(** C9 (as the code has it).  The [balance] of a successful answer is the
    syncing user's balance read from the store the call leaves behind, and
    zero when that store has no row for them.  Reading it creates no row: the
    change handler leaves exactly the store the loop produced, and the refund
    handler leaves one with the same set of users. *)
Theorem final_balance_is_refetched cs amb req txs db :
  SyncReq.transactions req = Some txs →
  (∀ db' body, Change.post_sync cs amb req db = (db', Json body) →
     db' = (for_of (Change.processTx (SyncReq.certificate req)) txs ([], 0) db).1 ∧
     SyncBody.balance body = balance_of db' (syncingUserId req)) ∧
  (∀ db' body, Refund.post_sync cs req db = (db', Json body) →
     dom (users db')
       = dom (users (for_of (Refund.processTx (SyncReq.certificate req)) txs ([], 0) db).1) ∧
     SyncBody.balance body = balance_of db' (syncingUserId req)).
Proof.
  intros Htxs. rewrite Change_loop_eq, Refund_loop_eq. cbn [fst].
  split; intros db' body Hrun.
  - destruct (Change_post_sync_json _ _ _ _ _ _ _ Htxs Hrun) as [-> ->]. done.
  - destruct (Refund_post_sync_json _ _ _ _ _ _ Htxs Hrun) as (unspent & Hrefund & ->).
    split; [|done].
    rewrite refundUnspent_eq in Hrefund.
    destruct (SyncReq.certificate req) as [c|]; [|by injection Hrefund as <- _].
    simpl in Hrefund. case_bool_decide; [|by injection Hrefund as <- _].
    destruct (users _ !! Certificate.user_id c); [|done].
    injection Hrefund as <- _. simpl. by rewrite dom_alter_L.
Qed.

(** ** Signing and verifying *)

Section Signatures.
Context (cs : CryptoService.t) `{!NaclLaws cs}.

Lemma sign_verifies message :
  CryptoService.verify cs message (CryptoService.sign cs message)
    (CryptoService.getPublicKey cs) = Some true.
Proof.
  unfold CryptoService.verify, CryptoService.sign, CryptoService.getPublicKey.
  rewrite !base64_round_trip. simpl. apply detached_accepts.
Qed.

Lemma sign_binds message message' :
  message ≠ message' →
  CryptoService.verify cs message' (CryptoService.sign cs message)
    (CryptoService.getPublicKey cs) = Some false.
Proof.
  intros Hne.
  unfold CryptoService.verify, CryptoService.sign, CryptoService.getPublicKey.
  rewrite !base64_round_trip. simpl. apply detached_binds.
  intros Heq. by apply Hne, utf8_injective.
Qed.

End Signatures.

Lemma checkCertificate_valid cs c :
  isCertValid cs c = Some true → checkCertificate cs (Some c) = inr true.
Proof. intros H. unfold checkCertificate. by rewrite H. Qed.

Lemma identified_certificate req c :
  SyncReq.certificate req = Some c → identified req = true.
Proof. intros H. unfold identified. rewrite H. by rewrite bool_decide_eq_true_2. Qed.

(** ** C1: settlement and the online balance *)

(** C1 (as the code has it).  For a sync call with a valid certificate: the
    change handler leaves exactly the store its loop produced, so issuing the
    change certificate touches no balance; the refund handler reports
    [refunded = tip_wallet_balance - total_spent] and, when that is
    positive, has added it to the certificate holder's balance. *)
Theorem settlement_and_balances cs amb req c txs db :
  SyncReq.certificate req = Some c →
  SyncReq.transactions req = Some txs →
  isCertValid cs c = Some true →
  (Change.post_sync cs amb req db).1
    = (for_of (Change.processTx (Some c)) txs ([], 0) db).1 ∧
  (∀ db' body, Refund.post_sync cs req db = (db', Json body) →
     let unspent := Certificate.tip_wallet_balance c - SyncBody.total_spent body in
     SyncBody.refunded body = Some unspent ∧
     (unspent > 0 →
      ∃ u, users (for_of (Refund.processTx (Some c)) txs ([], 0) db).1
             !! Certificate.user_id c = Some u ∧
           users db' !! Certificate.user_id c =
             Some (User.mk (User.id u) (User.balance u + unspent) (User.public_key u)))).
Proof.
  intros Hc Htxs Hvalid. rewrite Change_loop_eq, Refund_loop_eq. cbn [fst]. split.
  - rewrite (Change_post_sync_eq cs amb req txs db Htxs); [by rewrite Hc|..].
    + by eapply identified_certificate.
    + rewrite Hc. by apply checkCertificate_valid.
  - intros db' body Hrun.
    destruct (Refund_post_sync_json _ _ _ _ _ _ Htxs Hrun) as (unspent & Hrefund & ->).
    rewrite Hc in *. rewrite refundUnspent_eq in Hrefund. simpl in *.
    case_bool_decide as Hpos.
    + destruct (users _ !! Certificate.user_id c) as [u|] eqn:Hu; [|done].
      injection Hrefund as <- <-. split; [done|]. intros _.
      exists u. split; [done|]. simpl. by rewrite lookup_alter_eq, Hu.
    + injection Hrefund as <- <-. split; [done|]. intros Hpos'. done.
Qed.

(** ** C2: the change certificate *)


(** ** Stored rows stay as they are *)

Lemma step_transactions certificate db tx :
  transactions (step certificate db tx) =
  if skipped db tx then transactions db
  else <[Tx.transaction_id tx := txRow certificate tx]> (transactions db).
Proof.
  unfold step. destruct (skipped db tx); [done|]. by rewrite credit_transactions.
Qed.

Lemma skipped_stored db tx row :
  transactions db !! Tx.transaction_id tx = Some row → skipped db tx = true.
Proof. intros H. unfold skipped. rewrite H. by rewrite bool_decide_eq_true_2. Qed.

Lemma step_keeps_row certificate db tx id row :
  transactions db !! id = Some row →
  transactions (step certificate db tx) !! id = Some row.
Proof.
  intros Hrow. rewrite step_transactions.
  destruct (skipped db tx) eqn:Hskip; [done|].
  destruct (decide (Tx.transaction_id tx = id)) as [<-|Hne].
  - by rewrite (skipped_stored _ _ _ Hrow) in Hskip.
  - by rewrite lookup_insert_ne.
Qed.

Lemma replay_keeps_row certificate txs db id row :
  transactions db !! id = Some row →
  transactions (replay certificate txs db) !! id = Some row.
Proof.
  revert db. induction txs as [|tx txs IH]; intros db Hrow; [done|].
  apply IH. by apply step_keeps_row.
Qed.

Lemma step_skipped_id certificate db tx :
  skipped db tx = true → step certificate db tx = db.
Proof. intros H. unfold step. by rewrite H. Qed.

(** ** C7: sender attribution *)



(** ** C3: a transaction whose id is already stored *)

(** C3 (as the code has it).  When the id of a transaction is already in
    the [transactions] table, the iteration of either handler leaves the
    store as it is (no row inserted, no balance credited).  The change
    handler has by then listed the id in [processed] and added the amount to
    [totalSpent]; the refund handler does neither.  Over a whole call the
    stored row is still the same afterwards, and the change handler's answer
    lists the id. *)
Theorem stored_transaction_not_replayed cs amb req txs db tx row :
  SyncReq.transactions req = Some txs →
  tx ∈ txs →
  transactions db !! Tx.transaction_id tx = Some row →
  (∀ certificate results totalSpent db1,
     transactions db1 !! Tx.transaction_id tx = Some row →
     Change.processTx certificate (results, totalSpent) tx db1 =
       (db1, inr ((results ++ [Tx.transaction_id tx])%list, totalSpent + Tx.amount tx)) ∧
     Refund.processTx certificate (results, totalSpent) tx db1 =
       (db1, inr (results, totalSpent))) ∧
  transactions (Change.post_sync cs amb req db).1 !! Tx.transaction_id tx = Some row ∧
  transactions (Refund.post_sync cs req db).1 !! Tx.transaction_id tx = Some row ∧
  (∀ db' body, Change.post_sync cs amb req db = (db', Json body) →
     Tx.transaction_id tx ∈ SyncBody.processed body).
Proof.
  intros Htxs Hin Hrow. split_and!.
  - intros certificate results totalSpent db1 Hrow1.
    rewrite Change_processTx_eq, Refund_processTx_eq.
    rewrite (step_skipped_id _ _ _ (skipped_stored _ _ _ Hrow1)).
    unfold Refund_locals. rewrite Hrow1. by rewrite bool_decide_eq_true_2.
  - destruct (Change_post_sync_store cs amb req db) as [->|(txs' & _ & ->)]; [done|].
    by apply replay_keeps_row.
  - destruct (Refund_post_sync_store cs req db) as [->|(txs' & _ & ->)]; [done|].
    rewrite Refund_reconcile_store, refundUnspent_eq.
    pose proof (replay_keeps_row (SyncReq.certificate req) txs' db _ _ Hrow) as Hkept.
    destruct (SyncReq.certificate req) as [c|]; [|done]. simpl.
    case_bool_decide; [|done].
    by destruct (users _ !! Certificate.user_id c).
  - intros db' body Hrun.
    destruct (Change_post_sync_json _ _ _ _ _ _ _ Htxs Hrun) as [_ ->]. simpl.
    by apply list_elem_of_fmap_2.
Qed.

(** ** C4: what [total_spent] adds up *)

Lemma Refund_counted_cons certificate tx rest db :
  Refund_counted certificate (tx :: rest) db =
  if skipped db tx then Refund_counted certificate rest (step certificate db tx)
  else tx :: Refund_counted certificate rest (step certificate db tx).
Proof. cbn [Refund_counted]. by rewrite Refund_processTx_eq. Qed.

Lemma Refund_loop_total certificate txs locals db :
  (Refund_loop_locals certificate txs locals db).2 =
  locals.2 + foldr Z.add 0 (Tx.amount <$> Refund_counted certificate txs db).
Proof.
  revert locals db. induction txs as [|tx txs IH]; intros locals db; [simpl; lia|].
  rewrite Refund_counted_cons. cbn [Refund_loop_locals].
  rewrite IH. unfold Refund_locals, skipped.
  destruct (bool_decide _); csimpl; [done|].
  destruct (Js.truthy _); csimpl; lia.
Qed.



(** ** Running the loop again *)

Lemma skipped_ext db db' tx :
  transactions db = transactions db' → skipped db tx = skipped db' tx.
Proof. intros H. unfold skipped. by rewrite H. Qed.

Lemma skipped_step_self certificate db tx :
  skipped (step certificate db tx) tx = true.
Proof.
  destruct (skipped db tx) eqn:Hskip.
  - by rewrite step_skipped_id.
  - unfold skipped. rewrite step_transactions, Hskip, lookup_insert_eq.
    by rewrite bool_decide_eq_true_2.
Qed.

Lemma skipped_step_mono certificate db tx tx' :
  skipped db tx = true → skipped (step certificate db tx') tx = true.
Proof.
  unfold skipped. intros [Hstored|Hsig]%orb_true_iff.
  - apply bool_decide_eq_true in Hstored as [row Hrow].
    rewrite (step_keeps_row _ _ _ _ _ Hrow). by rewrite bool_decide_eq_true_2.
  - rewrite Hsig. by rewrite orb_true_r.
Qed.

Lemma skipped_replay_mono certificate txs db tx :
  skipped db tx = true → skipped (replay certificate txs db) tx = true.
Proof.
  revert db. induction txs as [|tx' txs IH]; intros db Hskip; [done|].
  apply IH. by apply skipped_step_mono.
Qed.

(** After the loop, every transaction of the batch is one the loop skips. *)
Lemma replay_all_skipped certificate txs db :
  Forall (λ tx, skipped (replay certificate txs db) tx = true) txs.
Proof.
  revert db. induction txs as [|tx txs IH]; intros db; [constructor|].
  constructor; [|apply (IH (step certificate db tx))].
  change (skipped (replay certificate txs (step certificate db tx)) tx = true).
  apply skipped_replay_mono, skipped_step_self.
Qed.

Lemma replay_skipped_id certificate txs db :
  Forall (λ tx, skipped db tx = true) txs → replay certificate txs db = db.
Proof.
  induction 1 as [|tx txs Htx _ IH]; [done|].
  unfold replay. simpl. by rewrite step_skipped_id.
Qed.

Lemma Refund_counted_skipped certificate txs db :
  Forall (λ tx, skipped db tx = true) txs → Refund_counted certificate txs db = [].
Proof.
  induction 1 as [|tx txs Htx _ IH]; [done|].
  by rewrite Refund_counted_cons, Htx, step_skipped_id.
Qed.

Lemma Change_json_inv cs amb req txs db db' body :
  SyncReq.transactions req = Some txs →
  Change.post_sync cs amb req db = (db', Json body) →
  identified req = true ∧ checkCertificate cs (SyncReq.certificate req) = inr true.
Proof.
  intros Htxs Hrun. unfold Change.post_sync, identified in *. rewrite Htxs in Hrun.
  destruct (bool_decide _); destruct (Js.truthy _); simpl in *; try done;
    by destruct (checkCertificate _ _) as [e|[|]].
Qed.

(** ** C5: the same batch twice *)

(** C5 (as the code has it).  After a successful sync call of the change
    handler, the same request again leaves the store exactly as it is and is
    answered with the same [processed] list, [total_spent] and [balance].
    After a successful call of the refund handler, the loop of a second call
    changes nothing (no row inserted, no receiver credited) and counts
    nothing, so the second answer has [total_spent = 0], the whole certificate
    balance is reported as refunded, and the only row that can differ after
    the second call is the certificate holder's. *)
Theorem same_batch_twice cs amb amb' req txs db :
  SyncReq.transactions req = Some txs →
  (∀ db1 body1, Change.post_sync cs amb req db = (db1, Json body1) →
     ∃ body2, Change.post_sync cs amb' req db1 = (db1, Json body2) ∧
       SyncBody.processed body2 = SyncBody.processed body1 ∧
       SyncBody.total_spent body2 = SyncBody.total_spent body1 ∧
       SyncBody.balance body2 = SyncBody.balance body1) ∧
  (∀ db1 body1, Refund.post_sync cs req db = (db1, Json body1) →
     (for_of (Refund.processTx (SyncReq.certificate req)) txs ([], 0) db1).1 = db1 ∧
     ∀ db2 body2, Refund.post_sync cs req db1 = (db2, Json body2) →
       transactions db2 = transactions db1 ∧
       (∀ id, Some id ≠ (Certificate.user_id <$> SyncReq.certificate req) →
              users db2 !! id = users db1 !! id) ∧
       SyncBody.total_spent body2 = 0 ∧
       SyncBody.refunded body2 =
         Some (from_option Certificate.tip_wallet_balance 0 (SyncReq.certificate req))).
Proof.
  intros Htxs. split.
  - intros db1 body1 Hrun.
    destruct (Change_json_inv _ _ _ _ _ _ _ Htxs Hrun) as [Hid Hcheck].
    destruct (Change_post_sync_json _ _ _ _ _ _ _ Htxs Hrun) as [Hdb1 ->].
    rewrite (Change_post_sync_eq cs amb' req txs db1 Htxs Hid Hcheck).
    assert (replay (SyncReq.certificate req) txs db1 = db1) as ->.
    { apply replay_skipped_id. rewrite Hdb1. apply replay_all_skipped. }
    eexists. split; [done|]. done.
  - intros db1 body1 Hrun.
    destruct (Refund_post_sync_json _ _ _ _ _ _ Htxs Hrun) as (unspent & Hrefund & _).
    assert (Forall (λ tx, skipped db1 tx = true) txs) as Hskipped.
    { eapply Forall_impl; [apply (replay_all_skipped (SyncReq.certificate req) txs db)|].
      intros tx Hskip. simpl in Hskip. rewrite <- Hskip. apply skipped_ext.
      pose proof (refundUnspent_transactions (SyncReq.certificate req)
        (Refund_loop_locals (SyncReq.certificate req) txs ([], 0) db).2
        (replay (SyncReq.certificate req) txs db)) as Htx.
      by rewrite Hrefund in Htx. }
    split; [rewrite Refund_loop_eq; by apply replay_skipped_id|].
    intros db2 body2 Hrun2.
    destruct (Refund_post_sync_json _ _ _ _ _ _ Htxs Hrun2) as (unspent2 & Hrefund2 & ->).
    rewrite (replay_skipped_id _ _ _ Hskipped) in Hrefund2.
    assert ((Refund_loop_locals (SyncReq.certificate req) txs ([], 0) db1).2 = 0) as Hzero.
    { by rewrite Refund_loop_total, (Refund_counted_skipped _ _ _ Hskipped). }
    cbn [SyncBody.total_spent SyncBody.refunded]. rewrite Hzero in *.
    split_and!.
    + pose proof (refundUnspent_transactions (SyncReq.certificate req) 0 db1) as Htx.
      by rewrite Hrefund2 in Htx.
    + intros id Hne.
      pose proof (refundUnspent_other_users (SyncReq.certificate req) 0 db1 id Hne) as Hu.
      by rewrite Hrefund2 in Hu.
    + done.
    + rewrite refundUnspent_eq in Hrefund2. f_equal.
      destruct (SyncReq.certificate req) as [c|]; simpl in *; [|congruence].
      rewrite Z.sub_0_r in Hrefund2.
      case_bool_decide; [destruct (users db1 !! _)|]; congruence.
Qed.

(** ** C6: certificates round-trip, and tampering is detected *)




Lemma canonical_eq user_id device_id tip_wallet_balance timestamp nonce expiration :
  canonical user_id device_id tip_wallet_balance timestamp nonce expiration =
  user_id +:+ "|" +:+ device_id +:+ "|" +:+ Js.of_number tip_wallet_balance +:+ "|"
    +:+ timestamp +:+ "|" +:+ nonce +:+ "|" +:+ expiration.
Proof. reflexivity. Qed.





(** * Worked examples *)

(** C1, counterexample.  Alice's certificate is valid and she is not a
    receiver of the batch, so her balance is 5 when the loop is done; the
    refund handler leaves it at 45: the unspent 40 went to her online
    balance. *)
Lemma refund_handler_credits_holder :
  isCertValid Fixture.cs Fixture.alice_cert = Some true ∧
  balance_of (for_of (Refund.processTx (Some Fixture.alice_cert)) [Fixture.pay_bob] ([], 0)
                Fixture.alice_db).1 "alice" = 5 ∧
  balance_of (Refund.post_sync Fixture.cs Fixture.spend60 Fixture.alice_db).1 "alice" = 45.
Proof. vm_compute. done. Qed.

(** [settlement_and_balances] at the worked example. *)
Lemma settlement_and_balances_witness :
  (Change.post_sync Fixture.cs Fixture.amb Fixture.spend60 Fixture.alice_db).1
    = (for_of (Change.processTx (Some Fixture.alice_cert)) [Fixture.pay_bob] ([], 0)
         Fixture.alice_db).1 ∧
  ∃ u, users (for_of (Refund.processTx (Some Fixture.alice_cert)) [Fixture.pay_bob] ([], 0)
                Fixture.alice_db).1 !! "alice" = Some u ∧
       users (Refund.post_sync Fixture.cs Fixture.spend60 Fixture.alice_db).1 !! "alice"
         = Some (User.mk (User.id u) (User.balance u + 40) (User.public_key u)).
Proof.
  destruct (settlement_and_balances Fixture.cs Fixture.amb Fixture.spend60
              Fixture.alice_cert [Fixture.pay_bob] Fixture.alice_db
              eq_refl eq_refl eq_refl) as [Hchange Hrefund].
  split; [exact Hchange|].
  destruct (Refund.post_sync Fixture.cs Fixture.spend60 Fixture.alice_db)
    as [db' [body|status error]] eqn:Hrun; [|by vm_compute in Hrun].
  destruct (Hrefund db' body eq_refl) as [_ Hpos].
  assert (SyncBody.total_spent body = 60) as Hspent.
  { vm_compute in Hrun. by injection Hrun as _ <-. }
  rewrite Hspent in Hpos. apply Hpos. reflexivity.
Defined.



(** C3, counterexample.  The id "t1" is already stored.  The change handler
    counts the 60 again ([total_spent] is 60), and the refund handler leaves
    the id out of [processed]. *)
Lemma stored_transaction_recounted_or_unlisted :
  is_Some (transactions Fixture.recorded_db !! Tx.transaction_id Fixture.pay_bob) ∧
  SyncBody.total_spent <$>
    body_of (Change.post_sync Fixture.cs Fixture.amb Fixture.spend60 Fixture.recorded_db).2
    = Some 60 ∧
  SyncBody.processed <$>
    body_of (Refund.post_sync Fixture.cs Fixture.spend60 Fixture.recorded_db).2
    = Some [].
Proof. split; [by eexists|]. vm_compute. done. Qed.

(** [stored_transaction_not_replayed] at the worked example. *)
Lemma stored_transaction_not_replayed_witness :
  Change.processTx (Some Fixture.alice_cert) ([], 0) Fixture.pay_bob Fixture.recorded_db
    = (Fixture.recorded_db, inr (["t1"], 60)) ∧
  Refund.processTx (Some Fixture.alice_cert) ([], 0) Fixture.pay_bob Fixture.recorded_db
    = (Fixture.recorded_db, inr ([], 0)) ∧
  transactions (Change.post_sync Fixture.cs Fixture.amb Fixture.spend60 Fixture.recorded_db).1
    !! "t1" = Some (txRow (Some Fixture.alice_cert) Fixture.pay_bob) ∧
  transactions (Refund.post_sync Fixture.cs Fixture.spend60 Fixture.recorded_db).1
    !! "t1" = Some (txRow (Some Fixture.alice_cert) Fixture.pay_bob).
Proof.
  destruct (stored_transaction_not_replayed Fixture.cs Fixture.amb Fixture.spend60
              [Fixture.pay_bob] Fixture.recorded_db Fixture.pay_bob
              (txRow (Some Fixture.alice_cert) Fixture.pay_bob)
              eq_refl (list_elem_of_here _ _) eq_refl)
    as (Hstep & Hchange & Hrefund & _).
  destruct (Hstep (Some Fixture.alice_cert) [] 0 Fixture.recorded_db eq_refl)
    as [HstepC HstepR].
  split; [exact HstepC|]. split; [exact HstepR|]. split; [exact Hchange|exact Hrefund].
Defined.



(** C5, counterexample.  The refund handler, same request twice: the first
    answer lists "t1" and leaves Alice at 45; the second answer lists nothing
    and leaves Alice at 145. *)
Lemma refund_handler_second_run_differs :
  SyncBody.processed <$>
    body_of (Refund.post_sync Fixture.cs Fixture.spend60 Fixture.alice_db).2
    = Some ["t1"] ∧
  balance_of (Refund.post_sync Fixture.cs Fixture.spend60 Fixture.alice_db).1 "alice" = 45 ∧
  SyncBody.processed <$>
    body_of (Refund.post_sync Fixture.cs Fixture.spend60
               (Refund.post_sync Fixture.cs Fixture.spend60 Fixture.alice_db).1).2
    = Some [] ∧
  balance_of (Refund.post_sync Fixture.cs Fixture.spend60
                (Refund.post_sync Fixture.cs Fixture.spend60 Fixture.alice_db).1).1 "alice"
    = 145.
Proof. vm_compute. done. Qed.

(** [same_batch_twice] at the worked example. *)
Lemma same_batch_twice_witness :
  (∃ db1 body1 body2,
     Change.post_sync Fixture.cs Fixture.amb Fixture.spend60 Fixture.alice_db
       = (db1, Json body1) ∧
     Change.post_sync Fixture.cs Fixture.amb Fixture.spend60 db1 = (db1, Json body2) ∧
     SyncBody.processed body2 = SyncBody.processed body1 ∧
     SyncBody.total_spent body2 = SyncBody.total_spent body1 ∧
     SyncBody.balance body2 = SyncBody.balance body1) ∧
  (∃ db1 body1 db2 body2,
     Refund.post_sync Fixture.cs Fixture.spend60 Fixture.alice_db = (db1, Json body1) ∧
     Refund.post_sync Fixture.cs Fixture.spend60 db1 = (db2, Json body2) ∧
     transactions db2 = transactions db1 ∧
     users db2 !! "bob" = users db1 !! "bob" ∧
     SyncBody.total_spent body2 = 0 ∧
     SyncBody.refunded body2 = Some 100).
Proof.
  split.
  - destruct (Change.post_sync Fixture.cs Fixture.amb Fixture.spend60 Fixture.alice_db)
      as [db1 [body1|status error]] eqn:Hrun; [|by vm_compute in Hrun].
    destruct (same_batch_twice Fixture.cs Fixture.amb Fixture.amb Fixture.spend60
                [Fixture.pay_bob] Fixture.alice_db eq_refl) as [Hchange _].
    destruct (Hchange db1 body1 Hrun) as (body2 & Hrun2 & Hsame).
    exists db1, body1, body2. split; [reflexivity|]. split; [exact Hrun2|exact Hsame].
  - destruct (Refund.post_sync Fixture.cs Fixture.spend60 Fixture.alice_db)
      as [db1 [body1|status error]] eqn:Hrun; [|by vm_compute in Hrun].
    destruct (Refund.post_sync Fixture.cs Fixture.spend60 db1)
      as [db2 [body2|status error]] eqn:Hrun2.
    + destruct (same_batch_twice Fixture.cs Fixture.amb Fixture.amb Fixture.spend60
                  [Fixture.pay_bob] Fixture.alice_db eq_refl) as [_ Hrefund].
      destruct (Hrefund db1 body1 Hrun) as [_ Hsecond].
      destruct (Hsecond db2 body2 Hrun2) as (Htx & Husers & Hspent & Hrefunded).
      exists db1, body1, db2, body2.
      split; [reflexivity|]. split; [exact Hrun2|]. split; [exact Htx|].
      split; [apply Husers; discriminate|]. split; [exact Hspent|exact Hrefunded].
    + vm_compute in Hrun. injection Hrun as <- _. by vm_compute in Hrun2.
Defined.

(** C9, counterexample.  A user the store has never seen: both handlers
    answer with balance 0, and afterwards the store still has no row for
    them. *)
Lemma unseen_user_is_not_provisioned :
  users Fixture.empty !! "ghost" = None ∧
  SyncBody.balance <$>
    body_of (Change.post_sync Fixture.cs Fixture.amb Fixture.ghost Fixture.empty).2 = Some 0 ∧
  users (Change.post_sync Fixture.cs Fixture.amb Fixture.ghost Fixture.empty).1 !! "ghost"
    = None ∧
  SyncBody.balance <$>
    body_of (Refund.post_sync Fixture.cs Fixture.ghost Fixture.empty).2 = Some 0 ∧
  users (Refund.post_sync Fixture.cs Fixture.ghost Fixture.empty).1 !! "ghost" = None.
Proof. vm_compute. done. Qed.

(** [final_balance_is_refetched] at the worked example. *)
Lemma final_balance_is_refetched_witness :
  (∃ db' body,
     Change.post_sync Fixture.cs Fixture.amb Fixture.ghost Fixture.empty = (db', Json body) ∧
     db' = (for_of (Change.processTx None) [] ([], 0) Fixture.empty).1 ∧
     SyncBody.balance body = balance_of db' "ghost") ∧
  (∃ db' body,
     Refund.post_sync Fixture.cs Fixture.ghost Fixture.empty = (db', Json body) ∧
     dom (users db') = dom (users (for_of (Refund.processTx None) [] ([], 0) Fixture.empty).1) ∧
     SyncBody.balance body = balance_of db' "ghost").
Proof.
  split.
  - destruct (Change.post_sync Fixture.cs Fixture.amb Fixture.ghost Fixture.empty)
      as [db' [body|status error]] eqn:Hrun; [|by vm_compute in Hrun].
    exists db', body. split; [reflexivity|].
    exact (proj1 (final_balance_is_refetched Fixture.cs Fixture.amb Fixture.ghost []
                    Fixture.empty eq_refl) db' body Hrun).
  - destruct (Refund.post_sync Fixture.cs Fixture.ghost Fixture.empty)
      as [db' [body|status error]] eqn:Hrun; [|by vm_compute in Hrun].
    exists db', body. split; [reflexivity|].
    exact (proj2 (final_balance_is_refetched Fixture.cs Fixture.amb Fixture.ghost []
                    Fixture.empty eq_refl) db' body Hrun).
Defined.


(** The change certificate of the worked example passes the check as well. *)
Lemma change_certificate_of_example_verifies :
  ∃ nc,
    SyncBody.new_certificate <$>
      body_of (Change.post_sync Fixture.cs Fixture.amb Fixture.spend60 Fixture.alice_db).2
      = Some (Some nc) ∧
    Certificate.tip_wallet_balance nc = 40 ∧
    isCertValid Fixture.cs nc = Some true.
Proof. eexists. vm_compute. done. Qed.




(** * Further properties *)

(** ** The wallet routes *)

Lemma fetch_balance_eq userId db :
  Account.fetch_balance userId db =
  match users db !! userId with
  | Some user => (db, inr (User.balance user))
  | None =>
      (mkDb (<[userId := User.mk userId 0 "PENDING_INITIALIZATION"]> (users db))
            (transactions db),
       inr 0)
  end.
Proof.
  unfold Account.fetch_balance, Returning.insert_user. unfold_async.
  destruct (users db !! userId) as [user|] eqn:Huser; simpl; [done|].
  by rewrite Huser.
Qed.

(** X1.  GET /balance/:userId always answers 200 with the stored balance, or with
    0 for a user it has never seen, whom it then stores with balance 0 and
    the marker 'PENDING_INITIALIZATION'.  It changes no existing row and no
    transaction, and asking again gives the same answer and changes
    nothing. *)
Theorem get_balance_provisions_once userId db :
  ∃ db',
    Account.get_balance userId db = (db', Json (balance_of db userId)) ∧
    transactions db' = transactions db ∧
    (∀ id u, users db !! id = Some u → users db' !! id = Some u) ∧
    (users db !! userId = None →
     users db' = <[userId := User.mk userId 0 "PENDING_INITIALIZATION"]> (users db)) ∧
    Account.get_balance userId db' = (db', Json (balance_of db userId)).
Proof.
  unfold Account.get_balance, balance_of. rewrite fetch_balance_eq.
  destruct (users db !! userId) as [user|] eqn:Huser.
  - exists db. rewrite fetch_balance_eq, Huser. split_and!; done.
  - eexists. split; [done|]. rewrite fetch_balance_eq. cbn [users transactions].
    rewrite lookup_insert_eq. split_and!; try done.
    intros id u Hu. rewrite lookup_insert_ne; [done|]. congruence.
Qed.

Lemma fund_eq user_id amount db :
  Account.fund user_id amount db =
  match users db !! user_id with
  | Some user =>
      (mkDb (alter (λ u, User.mk (User.id u) (User.balance user + amount) (User.public_key u))
               user_id (users db))
            (transactions db),
       inr (User.balance user + amount))
  | None =>
      (mkDb (<[user_id := User.mk user_id amount "PENDING_INITIALIZATION"]> (users db))
            (transactions db),
       inr amount)
  end.
Proof.
  unfold Account.fund, Returning.insert_user, Returning.update_balance. unfold_async.
  destruct (users db !! user_id) as [user|] eqn:Huser; simpl.
  - rewrite lookup_alter_eq, Huser. simpl. by rewrite or0_id.
  - by rewrite Huser.
Qed.


(** X3.  POST /fund answers 400 'Missing parameters', leaving the store as it is,
    exactly when the user id is missing or empty or the amount is undefined;
    an amount of zero is not missing. *)
Theorem post_fund_rejects_only_missing req db :
  (Js.truthy (Account.FundReq.user_id req) = false ∨ Account.FundReq.amount req = None) ↔
  Account.post_fund req db = (db, Status 400 "Missing parameters").
Proof.
  unfold Account.post_fund.
  destruct (Account.FundReq.user_id req) as [[|a u]|];
    destruct (Account.FundReq.amount req) as [amount|]; simpl;
    try (split; [done|by auto]).
  rewrite fund_eq. split; [by intros [?|?]|].
  by destruct (users db !! String a u).
Qed.



(** X5.  POST /initialize with a user id and a public key answers 200 and stores
    the key under that id.  A user who already has a row keeps the balance
    (a receiver provisioned by a credit keeps what was credited); a new one
    starts with the column default.  No other user and no transaction
    changes, and the same request again changes nothing. *)
Theorem post_initialize_registers default_balance req user_id public_key db :
  Account.InitReq.user_id req = Some user_id →
  user_id ≠ "" →
  Account.InitReq.public_key req = Some public_key →
  public_key ≠ "" →
  ∃ db',
    Account.post_initialize default_balance req db = (db', Json ()) ∧
    transactions db' = transactions db ∧
    users db' !! user_id =
      Some (User.mk user_id (from_option User.balance default_balance (users db !! user_id))
              public_key) ∧
    (∀ id, id ≠ user_id → users db' !! id = users db !! id) ∧
    Account.post_initialize default_balance req db' = (db', Json ()).
Proof.
  intros Hid Hne Hkey Hkne. unfold Account.post_initialize.
  rewrite Hid, Hkey. destruct user_id as [|a u]; [done|].
  destruct public_key as [|b k]; [done|].
  unfold Returning.upsert_public_key. cbn [error].
  eexists. split; [done|]. cbn [users transactions]. rewrite !lookup_insert_eq.
  split_and!; [done| | |].
  - by destruct (users db !! String a u).
  - intros id Hid'. by rewrite lookup_insert_ne.
  - rewrite insert_insert_eq. by destruct (users db !! String a u).
Qed.

(** ** POST /certificate *)

(** The store after the debit of POST /certificate. *)
Lemma post_certificate_eq cs amb a u b d amount db :
  Wallet.post_certificate cs amb
    (Wallet.CertReq.mk (Some (String a u)) (Some (String b d)) (Some amount)) db =
  match users db !! String a u with
  | None => (db, Status 404 "User not found")
  | Some user =>
      if bool_decide (User.balance user < amount)
      then (db, Status 400 "Insufficient balance on server")
      else
        (mkDb (alter (λ r, User.mk (User.id r) (User.balance user - amount) (User.public_key r))
                 (String a u) (users db))
              (transactions db),
         Json {| Certificate.user_id := User.id user;
                 Certificate.device_id := String b d;
                 Certificate.tip_wallet_balance := amount;
                 Certificate.timestamp := now_iso amb;
                 Certificate.nonce := fresh_nonce amb;
                 Certificate.expiration := expiry_iso amb;
                 Certificate.signature :=
                   CryptoService.sign cs
                     (canonical (User.id user) (String b d) amount (now_iso amb)
                        (fresh_nonce amb) (expiry_iso amb)) |})
  end.
Proof.
  unfold Wallet.post_certificate, Supabase.select_user, Supabase.update_balance.
  cbn [Wallet.CertReq.user_id Wallet.CertReq.device_id Wallet.CertReq.amount].
  destruct (users db !! String a u) as [user|]; [|done]. cbn [error data].
  by case_bool_decide.
Qed.

(** A request with a missing field is turned away before the store is
    read. *)
Lemma post_certificate_incomplete cs amb req db :
  Js.truthy (Wallet.CertReq.user_id req) = false ∨
  Js.truthy (Wallet.CertReq.device_id req) = false ∨
  Wallet.CertReq.amount req = None →
  Wallet.post_certificate cs amb req db = (db, Status 400 "Missing parameters").
Proof.
  unfold Wallet.post_certificate.
  destruct (Wallet.CertReq.user_id req) as [[|a u]|];
    destruct (Wallet.CertReq.device_id req) as [[|b d]|];
    destruct (Wallet.CertReq.amount req) as [amount|]; simpl; try done.
  by intros [?|[?|?]].
Qed.


(** X7.  POST /certificate grants a certificate exactly when the three request
    fields are there, the user has a row, and the amount does not exceed
    the stored balance; asking for the whole balance is granted. *)
Theorem post_certificate_granted_iff cs amb req db :
  (∃ db' c, Wallet.post_certificate cs amb req db = (db', Json c)) ↔
  (∃ user_id device_id amount user,
     Wallet.CertReq.user_id req = Some user_id ∧ user_id ≠ "" ∧
     Wallet.CertReq.device_id req = Some device_id ∧ device_id ≠ "" ∧
     Wallet.CertReq.amount req = Some amount ∧
     users db !! user_id = Some user ∧
     amount ≤ User.balance user).
Proof.
  split.
  - intros (db' & c & Hrun).
    destruct req as [[[|a u]|] [[|b d]|] [amount|]];
      try (by rewrite post_certificate_incomplete in Hrun by (simpl; auto)).
    rewrite post_certificate_eq in Hrun.
    destruct (users db !! String a u) as [user|] eqn:Huser; [|done].
    case_bool_decide as Hlt; [done|].
    exists (String a u), (String b d), amount, user. split_and!; try done. lia.
  - intros (user_id & device_id & amount & user & Hu & Hune & Hd & Hdne & Ha & Hrow & Hle).
    destruct req as [ru rd ra]. simpl in *. subst ru rd ra.
    destruct user_id as [|a u]; [done|]. destruct device_id as [|b d]; [done|].
    rewrite post_certificate_eq, Hrow.
    rewrite bool_decide_eq_false_2 by lia. by eexists _, _.
Qed.

(** ** More on one loop iteration *)

Lemma receiverId_truthy tx : Js.truthy_str (receiverId tx) = true.
Proof.
  unfold receiverId, Js.or, Js.or_lit.
  destruct (Tx.receiver_user_id tx) as [[|a s]|]; simpl; try done;
    by destruct (Tx.receiver_device_id tx) as [[|b t]|].
Qed.

Lemma credit_real receiverId amount db :
  Js.truthy_str receiverId = true →
  receiverId ≠ "unknown" →
  credit receiverId amount db =
  mkDb (<[receiverId :=
            match users db !! receiverId with
            | Some u => User.mk (User.id u) (User.balance u + amount) (User.public_key u)
            | None => User.mk receiverId amount "PENDING_INITIALIZATION"
            end]> (users db))
       (transactions db).
Proof.
  intros Htruthy Hknown. unfold credit. rewrite Htruthy.
  rewrite (proj2 (String.eqb_neq _ _) Hknown). simpl.
  destruct (users db !! receiverId) as [u|] eqn:Hu; [|done].
  rewrite or0_id. f_equal. by rewrite (alter_alt_Some _ _ _ _ Hu).
Qed.

Lemma credit_unknown amount db : credit "unknown" amount db = db.
Proof. done. Qed.

(** X8.  A transaction without a sender signature, whose id is not stored, is
    not recorded: the iteration of either handler leaves the store as it is.
    Both handlers list its id as processed; the change-certificate handler
    also adds its amount to [totalSpent], the refund handler does not. *)
Theorem unsigned_transaction_not_recorded certificate results totalSpent tx db :
  Js.truthy (Tx.sender_signature tx) = false →
  transactions db !! Tx.transaction_id tx = None →
  Change.processTx certificate (results, totalSpent) tx db =
    (db, inr ((results ++ [Tx.transaction_id tx])%list, totalSpent + Tx.amount tx)) ∧
  Refund.processTx certificate (results, totalSpent) tx db =
    (db, inr ((results ++ [Tx.transaction_id tx])%list, totalSpent)).
Proof.
  intros Hsig Hfresh.
  rewrite Change_processTx_eq, Refund_processTx_eq.
  assert (skipped db tx = true) as Hskip.
  { unfold skipped. rewrite Hsig. by rewrite orb_true_r. }
  rewrite (step_skipped_id _ _ _ Hskip). unfold Refund_locals.
  rewrite Hfresh, Hsig. by rewrite bool_decide_eq_false_2 by (by intros [? ?]).
Qed.

(** [unsigned_transaction_not_recorded] at a worked example. *)
Lemma unsigned_transaction_not_recorded_witness :
  Change.processTx (Some Fixture.alice_cert) ([], 0) Scenario.unsigned_pay Fixture.alice_db =
    (Fixture.alice_db, inr (["t2"], 25)) ∧
  Refund.processTx (Some Fixture.alice_cert) ([], 0) Scenario.unsigned_pay Fixture.alice_db =
    (Fixture.alice_db, inr (["t2"], 0)).
Proof.
  exact (unsigned_transaction_not_recorded (Some Fixture.alice_cert) [] 0
           Scenario.unsigned_pay Fixture.alice_db eq_refl eq_refl).
Defined.

(** X9.  A signed transaction whose id is not stored is recorded the same way by
    both handlers: its row is inserted under its id, and its amount goes to
    the receiver, who is the receiver user id if given, else the receiver
    device id if given.  A receiver with a row gets the amount added and
    keeps id and public key; one without a row is created with exactly the
    amount and the marker 'PENDING_INITIALIZATION'; no other user changes.
    When the transaction names no receiver the row is still inserted and no
    user changes. *)
Theorem recorded_transaction_credits_receiver certificate locals tx db :
  transactions db !! Tx.transaction_id tx = None →
  Js.truthy (Tx.sender_signature tx) = true →
  ∃ db',
    (Change.processTx certificate locals tx db).1 = db' ∧
    (Refund.processTx certificate locals tx db).1 = db' ∧
    transactions db' = <[Tx.transaction_id tx := txRow certificate tx]> (transactions db) ∧
    receiverId tx =
      Js.or_lit (Js.or (Tx.receiver_user_id tx) (Tx.receiver_device_id tx)) "unknown" ∧
    (receiverId tx = "unknown" → users db' = users db) ∧
    (receiverId tx ≠ "unknown" →
     users db' !! receiverId tx =
       Some (match users db !! receiverId tx with
             | Some u => User.mk (User.id u) (User.balance u + Tx.amount tx) (User.public_key u)
             | None => User.mk (receiverId tx) (Tx.amount tx) "PENDING_INITIALIZATION"
             end) ∧
     ∀ id, id ≠ receiverId tx → users db' !! id = users db !! id).
Proof.
  intros Hfresh Hsig. destruct locals as [results totalSpent].
  exists (step certificate db tx).
  rewrite Change_processTx_eq, Refund_processTx_eq. cbn [fst].
  assert (skipped db tx = false) as Hskip.
  { unfold skipped. rewrite Hfresh, Hsig. by rewrite bool_decide_eq_false_2 by (by intros [? ?]). }
  split_and!; try done.
  - by rewrite step_transactions, Hskip.
  - intros Hunknown. unfold step. rewrite Hskip, Hunknown. by rewrite credit_unknown.
  - intros Hknown. unfold step. rewrite Hskip.
    rewrite (credit_real _ _ _ (receiverId_truthy tx) Hknown). cbn [users].
    split; [by rewrite lookup_insert_eq|].
    intros id Hid. by rewrite lookup_insert_ne.
Qed.

(** [recorded_transaction_credits_receiver] at a worked example. *)
Lemma recorded_transaction_credits_receiver_witness :
  ∃ db',
    (Change.processTx (Some Fixture.alice_cert) ([], 0) Fixture.pay_bob Fixture.alice_db).1
      = db' ∧
    users db' !! "bob" = Some (User.mk "bob" 60 "PENDING_INITIALIZATION") ∧
    users db' !! "alice" = Some (Fixture.user "alice" 5).
Proof.
  destruct (recorded_transaction_credits_receiver (Some Fixture.alice_cert) ([], 0)
              Fixture.pay_bob Fixture.alice_db eq_refl eq_refl)
    as (db' & Hchange & _ & _ & _ & _ & Hknown).
  exists db'. split; [exact Hchange|].
  destruct (Hknown ltac:(discriminate)) as [Hbob Hothers].
  split; [exact Hbob|]. rewrite (Hothers "alice" ltac:(discriminate)). reflexivity.
Defined.

(** ** What a sync call can and cannot change *)

Global Instance same_identities_refl : Reflexive same_identities.
Proof. intros db id u Hu. by exists u. Qed.

Global Instance same_identities_trans : Transitive same_identities.
Proof.
  intros db1 db2 db3 H12 H23 id u Hu.
  destruct (H12 id u Hu) as (u2 & Hu2 & Hid2 & Hpk2).
  destruct (H23 id u2 Hu2) as (u3 & Hu3 & Hid3 & Hpk3).
  exists u3. split_and!; [done|congruence..].
Qed.

Lemma set_balance_same_identities db holder newBalance :
  same_identities db
    (mkDb (alter (λ u, User.mk (User.id u) newBalance (User.public_key u)) holder (users db))
          (transactions db)).
Proof.
  intros id u Hu. cbn [users].
  destruct (decide (holder = id)) as [<-|Hne].
  - rewrite lookup_alter_eq, Hu. by eexists.
  - rewrite lookup_alter_ne by done. by exists u.
Qed.

Lemma credit_same_identities receiverId amount db :
  same_identities db (credit receiverId amount db).
Proof.
  unfold credit. destruct (_ && _); [|reflexivity].
  destruct (users db !! receiverId) as [receiver|] eqn:Hr.
  - apply set_balance_same_identities.
  - intros id u Hu. cbn [users]. exists u.
    rewrite lookup_insert_ne; [done|]. congruence.
Qed.

Lemma replay_same_identities certificate txs db :
  same_identities db (replay certificate txs db).
Proof.
  revert db. induction txs as [|tx txs IH]; intros db; [reflexivity|].
  change (same_identities db (replay certificate txs (step certificate db tx))).
  etrans; [|apply IH]. unfold step. destruct (skipped db tx); [reflexivity|].
  etrans; [|apply credit_same_identities]. intros id u Hu. by exists u.
Qed.

Lemma refundUnspent_same_identities certificate totalSpent db :
  same_identities db (Refund.refundUnspent certificate totalSpent db).1.
Proof.
  rewrite refundUnspent_eq. destruct certificate as [c|]; [|reflexivity]. simpl.
  case_bool_decide; [|reflexivity].
  destruct (users db !! Certificate.user_id c); [|reflexivity].
  apply set_balance_same_identities.
Qed.

(** X10.  Whatever the request and the outcome, a sync call of either handler
    leaves every stored transaction row exactly as it was, and every stored
    user under the same id with the same public key: of what was stored
    before, only balances can differ afterwards. *)
Theorem sync_changes_only_balances cs amb req db :
  (∀ id row, transactions db !! id = Some row →
     transactions (Change.post_sync cs amb req db).1 !! id = Some row ∧
     transactions (Refund.post_sync cs req db).1 !! id = Some row) ∧
  same_identities db (Change.post_sync cs amb req db).1 ∧
  same_identities db (Refund.post_sync cs req db).1.
Proof.
  split_and!.
  - intros id row Hrow. split.
    + destruct (Change_post_sync_store cs amb req db) as [->|(txs & _ & ->)]; [done|].
      by apply replay_keeps_row.
    + destruct (Refund_post_sync_store cs req db) as [->|(txs & _ & ->)]; [done|].
      rewrite Refund_reconcile_store, refundUnspent_transactions.
      by apply replay_keeps_row.
  - destruct (Change_post_sync_store cs amb req db) as [->|(txs & _ & ->)]; [reflexivity|].
    apply replay_same_identities.
  - destruct (Refund_post_sync_store cs req db) as [->|(txs & _ & ->)]; [reflexivity|].
    rewrite Refund_reconcile_store.
    etrans; [apply replay_same_identities|apply refundUnspent_same_identities].
Qed.

(** X11.  After a sync call that answered 200, every transaction of the batch that
    carries a sender signature has a row under its id, in both handlers. *)
Theorem sync_records_every_signed_transaction cs amb req txs db db' body tx :
  SyncReq.transactions req = Some txs →
  Change.post_sync cs amb req db = (db', Json body) ∨
  Refund.post_sync cs req db = (db', Json body) →
  tx ∈ txs →
  Js.truthy (Tx.sender_signature tx) = true →
  is_Some (transactions db' !! Tx.transaction_id tx).
Proof.
  intros Htxs Hrun Hin Hsig.
  assert (transactions db' = transactions (replay (SyncReq.certificate req) txs db)) as Hdb'.
  { destruct Hrun as [Hrun|Hrun].
    - by destruct (Change_post_sync_json _ _ _ _ _ _ _ Htxs Hrun) as [-> _].
    - destruct (Refund_post_sync_json _ _ _ _ _ _ Htxs Hrun) as (unspent & Hrefund & _).
      pose proof (refundUnspent_transactions (SyncReq.certificate req)
        (Refund_loop_locals (SyncReq.certificate req) txs ([], 0) db).2
        (replay (SyncReq.certificate req) txs db)) as Htx.
      by rewrite Hrefund in Htx. }
  pose proof (replay_all_skipped (SyncReq.certificate req) txs db) as Hall.
  rewrite Forall_forall in Hall. specialize (Hall tx Hin).
  unfold skipped in Hall. rewrite Hsig, orb_false_r in Hall.
  apply bool_decide_eq_true in Hall. by rewrite Hdb'.
Qed.

(** [sync_records_every_signed_transaction] at a worked example. *)
Lemma sync_records_every_signed_transaction_witness :
  is_Some (transactions
             (Change.post_sync Fixture.cs Fixture.amb Fixture.spend60 Fixture.alice_db).1
           !! "t1").
Proof.
  destruct (Change.post_sync Fixture.cs Fixture.amb Fixture.spend60 Fixture.alice_db)
    as [db' [body|status error]] eqn:Hrun; [|by vm_compute in Hrun].
  exact (sync_records_every_signed_transaction Fixture.cs Fixture.amb Fixture.spend60
           [Fixture.pay_bob] Fixture.alice_db db' body Fixture.pay_bob
           eq_refl (or_introl Hrun) (list_elem_of_here _ _) eq_refl).
Defined.

(** ** The refund handler, end to end *)

Lemma Refund_post_sync_run cs req txs db :
  SyncReq.transactions req = Some txs →
  identified req = true →
  checkCertificate cs (SyncReq.certificate req) = inr true →
  Refund.post_sync cs req db =
  match Refund.refundUnspent (SyncReq.certificate req)
          (Refund_loop_locals (SyncReq.certificate req) txs ([], 0) db).2
          (replay (SyncReq.certificate req) txs db) with
  | (db', inl _) => (db', Status 500 "Sync failed")
  | (db', inr unspent) =>
      (db',
       Json {| SyncBody.processed :=
                 (Refund_loop_locals (SyncReq.certificate req) txs ([], 0) db).1;
               SyncBody.new_certificate := None;
               SyncBody.refunded := Some unspent;
               SyncBody.total_spent :=
                 (Refund_loop_locals (SyncReq.certificate req) txs ([], 0) db).2;
               SyncBody.balance := balance_of db' (syncingUserId req) |})
  end.
Proof.
  intros Htxs Hid Hcheck. unfold Refund.post_sync, identified in *.
  rewrite Htxs, Hcheck.
  destruct (bool_decide _); destruct (Js.truthy _); simpl in *; try done.
  all: unfold Refund.reconcile; unfold mbind at 1; unfold Async_bind;
    rewrite Refund_loop_eq;
    destruct (Refund_loop_locals _ _ _ _) as [results totalSpent]; cbn [fst snd];
    unfold mbind at 1; unfold Async_bind;
    destruct (Refund.refundUnspent _ _ _) as [db2 [e|unspent]]; [done|];
    unfold mbind, Async_bind; by rewrite finalBalance_eq.
Qed.

Lemma Refund_json_inv cs req txs db db' body :
  SyncReq.transactions req = Some txs →
  Refund.post_sync cs req db = (db', Json body) →
  identified req = true ∧ checkCertificate cs (SyncReq.certificate req) = inr true.
Proof.
  intros Htxs Hrun. unfold Refund.post_sync, identified in *. rewrite Htxs in Hrun.
  destruct (bool_decide _); destruct (Js.truthy _); simpl in *; try done;
    by destruct (checkCertificate _ _) as [e|[|]].
Qed.

(** X12.  A request without a certificate that names its user is answered 200 by
    both handlers, whatever the signing service and the clock: no signature
    is checked, nothing is refunded ([refunded] is 0) and no certificate is
    issued.  Both handlers leave the same store and report the same
    balance. *)
Theorem sync_without_certificate cs cs' amb amb' req txs db :
  SyncReq.certificate req = None →
  SyncReq.transactions req = Some txs →
  Js.truthy (SyncReq.user_id req) = true →
  ∃ db' bodyC bodyR,
    Change.post_sync cs amb req db = (db', Json bodyC) ∧
    Change.post_sync cs' amb' req db = (db', Json bodyC) ∧
    Refund.post_sync cs req db = (db', Json bodyR) ∧
    Refund.post_sync cs' req db = (db', Json bodyR) ∧
    SyncBody.new_certificate bodyC = None ∧
    SyncBody.refunded bodyR = Some 0 ∧
    SyncBody.balance bodyC = SyncBody.balance bodyR.
Proof.
  intros Hcert Htxs Huser.
  assert (identified req = true) as Hid.
  { unfold identified. rewrite Huser. by rewrite orb_true_r. }
  assert (∀ s, checkCertificate s (SyncReq.certificate req) = inr true) as Hcheck.
  { intros s. by rewrite Hcert. }
  rewrite !(Change_post_sync_eq _ _ req txs db Htxs Hid (Hcheck _)).
  rewrite !(Refund_post_sync_run _ req txs db Htxs Hid (Hcheck _)).
  rewrite Hcert, refundUnspent_eq.
  eexists _, _, _. split_and!; done.
Qed.

(** [sync_without_certificate] at a worked example. *)
Lemma sync_without_certificate_witness :
  ∃ db' bodyC bodyR,
    Change.post_sync Fixture.cs Fixture.amb Scenario.online Fixture.alice_db
      = (db', Json bodyC) ∧
    Refund.post_sync Fixture.cs Scenario.online Fixture.alice_db = (db', Json bodyR) ∧
    SyncBody.new_certificate bodyC = None ∧
    SyncBody.refunded bodyR = Some 0 ∧
    SyncBody.balance bodyC = SyncBody.balance bodyR.
Proof.
  destruct (sync_without_certificate Fixture.cs Fixture.cs Fixture.amb Fixture.amb
              Scenario.online [Fixture.pay_bob] Fixture.alice_db eq_refl eq_refl eq_refl)
    as (db' & bodyC & bodyR & HC & _ & HR & _ & Hrest).
  exists db', bodyC, bodyR. split; [exact HC|]. split; [exact HR|exact Hrest].
Defined.

(** X13.  The refund handler can fail after its loop has run.  When the
    certificate is valid, less than its balance was recorded, and the store
    the loop produced has no row for the certificate holder, the answer is
    500 'Sync failed' and the store is the one the loop produced: the rows
    inserted and the credits made stay. *)
Theorem refund_fails_after_the_loop cs req c txs db :
  SyncReq.certificate req = Some c →
  SyncReq.transactions req = Some txs →
  isCertValid cs c = Some true →
  users (for_of (Refund.processTx (Some c)) txs ([], 0) db).1 !! Certificate.user_id c = None →
  foldr Z.add 0 (Tx.amount <$> Refund_counted (Some c) txs db)
    < Certificate.tip_wallet_balance c →
  Refund.post_sync cs req db =
    ((for_of (Refund.processTx (Some c)) txs ([], 0) db).1, Status 500 "Sync failed").
Proof.
  intros Hc Htxs Hvalid Hholder Hless.
  rewrite Refund_loop_eq in *. cbn [fst] in *.
  rewrite (Refund_post_sync_run cs req txs db Htxs).
  - rewrite Hc, refundUnspent_eq, Refund_loop_total. cbn [snd].
    rewrite bool_decide_eq_true_2 by lia. by rewrite Hholder.
  - by eapply identified_certificate.
  - rewrite Hc. by apply checkCertificate_valid.
Qed.

(** [refund_fails_after_the_loop] at a worked example: Bob has been credited,
    Carol has no row. *)
Lemma refund_fails_after_the_loop_witness :
  (Refund.post_sync Fixture.cs (presenting Scenario.carol_cert [Fixture.pay_bob])
     Fixture.alice_db).2 = Status 500 "Sync failed" ∧
  users (Refund.post_sync Fixture.cs (presenting Scenario.carol_cert [Fixture.pay_bob])
           Fixture.alice_db).1 !! "bob"
    = Some (User.mk "bob" 60 "PENDING_INITIALIZATION").
Proof.
  rewrite (refund_fails_after_the_loop Fixture.cs
             (presenting Scenario.carol_cert [Fixture.pay_bob]) Scenario.carol_cert
             [Fixture.pay_bob] Fixture.alice_db eq_refl eq_refl eq_refl eq_refl eq_refl).
  split; reflexivity.
Defined.

(** ** A batch that repeats itself *)

Lemma replay_app certificate txs1 txs2 db :
  replay certificate (txs1 ++ txs2) db = replay certificate txs2 (replay certificate txs1 db).
Proof. unfold replay. apply foldl_app. Qed.

Lemma Refund_counted_app certificate txs1 txs2 db :
  Refund_counted certificate (txs1 ++ txs2) db =
  (Refund_counted certificate txs1 db
   ++ Refund_counted certificate txs2 (replay certificate txs1 db))%list.
Proof.
  revert db. induction txs1 as [|tx txs1 IH]; intros db; [done|].
  rewrite <- app_comm_cons, !Refund_counted_cons, IH.
  change (replay certificate (tx :: txs1) db)
    with (replay certificate txs1 (step certificate db tx)).
  by destruct (skipped db tx).
Qed.

Lemma replay_twice certificate txs db :
  replay certificate (txs ++ txs) db = replay certificate txs db.
Proof. rewrite replay_app. apply replay_skipped_id, replay_all_skipped. Qed.

Lemma Refund_counted_twice certificate txs db :
  Refund_counted certificate (txs ++ txs) db = Refund_counted certificate txs db.
Proof.
  rewrite Refund_counted_app.
  rewrite (Refund_counted_skipped _ _ _ (replay_all_skipped certificate txs db)).
  apply app_nil_r.
Qed.

(** X14.  Sending every transaction of a batch twice in one request changes the
    store exactly as sending it once does; no receiver is credited twice.
    The change-certificate handler nevertheless counts each copy: its
    [total_spent] doubles and [processed] lists every id twice.  The refund
    handler answers with the same [total_spent], [refunded] and
    [balance]. *)
Theorem batch_sent_twice cs amb req txs db :
  SyncReq.transactions req = Some txs →
  (∀ db1 body1, Change.post_sync cs amb req db = (db1, Json body1) →
     ∃ body2,
       Change.post_sync cs amb (with_transactions req (txs ++ txs)) db = (db1, Json body2) ∧
       SyncBody.total_spent body2 = 2 * SyncBody.total_spent body1 ∧
       SyncBody.processed body2
         = (SyncBody.processed body1 ++ SyncBody.processed body1)%list) ∧
  (∀ db1 body1, Refund.post_sync cs req db = (db1, Json body1) →
     ∃ body2,
       Refund.post_sync cs (with_transactions req (txs ++ txs)) db = (db1, Json body2) ∧
       SyncBody.total_spent body2 = SyncBody.total_spent body1 ∧
       SyncBody.refunded body2 = SyncBody.refunded body1 ∧
       SyncBody.balance body2 = SyncBody.balance body1).
Proof.
  intros Htxs. split; intros db1 body1 Hrun.
  - destruct (Change_json_inv _ _ _ _ _ _ _ Htxs Hrun) as [Hid Hcheck].
    destruct (Change_post_sync_json _ _ _ _ _ _ _ Htxs Hrun) as [-> ->].
    rewrite (Change_post_sync_eq cs amb (with_transactions req (txs ++ txs))
               (txs ++ txs) db eq_refl Hid Hcheck).
    cbn [with_transactions SyncReq.certificate]. rewrite replay_twice.
    eexists. split; [done|]. cbn [SyncBody.total_spent SyncBody.processed].
    rewrite !fmap_app, foldr_app. split; [|done].
    generalize (Tx.amount <$> txs). intros l.
    assert (∀ acc, foldr Z.add acc l = acc + foldr Z.add 0 l) as Hacc.
    { induction l as [|x l IH]; intros acc; simpl; [lia|]. rewrite IH. lia. }
    rewrite Hacc. lia.
  - destruct (Refund_json_inv _ _ _ _ _ _ Htxs Hrun) as [Hid Hcheck].
    rewrite (Refund_post_sync_run cs req txs db Htxs Hid Hcheck) in Hrun.
    rewrite (Refund_post_sync_run cs (with_transactions req (txs ++ txs))
               (txs ++ txs) db eq_refl Hid Hcheck).
    cbn [with_transactions SyncReq.certificate]. rewrite replay_twice.
    rewrite !Refund_loop_total, Refund_counted_twice in *.
    destruct (Refund.refundUnspent _ _ _) as [db2 [e|unspent]]; [done|].
    injection Hrun as <- <-. eexists. split; [done|]. done.
Qed.

(** [batch_sent_twice] at a worked example. *)
Lemma batch_sent_twice_witness :
  ∃ db1 body1 body2,
    Change.post_sync Fixture.cs Fixture.amb Fixture.spend60 Fixture.alice_db
      = (db1, Json body1) ∧
    Change.post_sync Fixture.cs Fixture.amb
      (with_transactions Fixture.spend60 [Fixture.pay_bob; Fixture.pay_bob]) Fixture.alice_db
      = (db1, Json body2) ∧
    SyncBody.total_spent body2 = 2 * SyncBody.total_spent body1 ∧
    users db1 !! "bob" = Some (User.mk "bob" 60 "PENDING_INITIALIZATION").
Proof.
  destruct (Change.post_sync Fixture.cs Fixture.amb Fixture.spend60 Fixture.alice_db)
    as [db1 [body1|status error]] eqn:Hrun; [|by vm_compute in Hrun].
  destruct (proj1 (batch_sent_twice Fixture.cs Fixture.amb Fixture.spend60
                     [Fixture.pay_bob] Fixture.alice_db eq_refl) db1 body1 Hrun)
    as (body2 & Hrun2 & Hspent & _).
  exists db1, body1, body2. split; [reflexivity|]. split; [exact Hrun2|].
  split; [exact Hspent|].
  vm_compute in Hrun. injection Hrun as <- _. reflexivity.
Defined.

(** ** The sum of all balances *)










(** ** From issuance to reconciliation *)


Lemma presenting_checks cs c txs :
  isCertValid cs c = Some true →
  identified (presenting c txs) = true ∧
  checkCertificate cs (SyncReq.certificate (presenting c txs)) = inr true.
Proof. intros Hvalid. split; [done|]. by apply checkCertificate_valid. Qed.





(** ** Spending a certificate in several syncs *)






(** ** The delimiter of the canonical string *)

Lemma string_app_cons a s t : String a s +:+ t = String a (s +:+ t).
Proof. reflexivity. Qed.

Lemma string_app_nil t : "" +:+ t = t.
Proof. reflexivity. Qed.

Lemma string_app_assoc (s1 s2 s3 : string) : (s1 +:+ s2) +:+ s3 = s1 +:+ (s2 +:+ s3).
Proof.
  induction s1 as [|a s1 IH]; [done|]. rewrite !string_app_cons. by rewrite IH.
Qed.

(** X19.  The canonical string does not say where one field ends and the next
    begins: a '|' may be moved from the end of the user id to the front of
    the device id without changing it.  A certificate for the user
    [u|d1] on device [d2] therefore passes or fails the check exactly as the
    same certificate read as user [u] on device [d1|d2] does, with any
    signing service. *)
Theorem delimiter_shifts_between_fields cs u d1 d2 balance timestamp nonce expiration sig :
  isCertValid cs
    (Certificate.mk (u +:+ "|" +:+ d1) d2 balance timestamp nonce expiration sig) =
  isCertValid cs
    (Certificate.mk u (d1 +:+ "|" +:+ d2) balance timestamp nonce expiration sig).
Proof.
  unfold isCertValid, certToVerify. cbn [Certificate.user_id Certificate.device_id
    Certificate.tip_wallet_balance Certificate.timestamp Certificate.nonce
    Certificate.expiration Certificate.signature].
  rewrite !canonical_eq. by rewrite !string_app_assoc.
Qed.

Lemma delimiter_free_digits x s :
  delimiter_free s = true → delimiter_free (pretty_N_go x s) = true.
Proof.
  revert s. induction (N.lt_wf_0 x) as [x _ IH]. intros s Hs.
  destruct (decide (x = 0)%N) as [->|Hx]; [by rewrite pretty_N_go_0|].
  rewrite pretty_N_go_step by lia.
  apply IH; [apply N.div_lt; lia|].
  simpl. rewrite Hs. unfold pretty_N_char. by repeat case_match.
Qed.

Lemma delimiter_free_of_number n : delimiter_free (Js.of_number n) = true.
Proof.
  unfold Js.of_number, pretty, pretty_Z.
  destruct n as [|p|p]; [done| |].
  - unfold pretty, pretty_positive, pretty, pretty_N. case_decide; [done|].
    by apply delimiter_free_digits.
  - unfold pretty, pretty_positive, pretty, pretty_N. case_decide; [done|].
    simpl. by apply delimiter_free_digits.
Qed.

Lemma split_at_delimiter s1 s2 r1 r2 :
  delimiter_free s1 = true →
  delimiter_free s2 = true →
  s1 +:+ "|" +:+ r1 = s2 +:+ "|" +:+ r2 →
  s1 = s2 ∧ r1 = r2.
Proof.
  revert s2. induction s1 as [|a s1 IH]; intros [|b s2] H1 H2 Heq;
    rewrite ?string_app_cons, ?string_app_nil in Heq; simpl in H1, H2.
  - by injection Heq as ->.
  - injection Heq as <- _. done.
  - injection Heq as -> _. done.
  - injection Heq as -> Heq.
    apply andb_true_iff in H1 as [_ H1]. apply andb_true_iff in H2 as [_ H2].
    destruct (IH s2 H1 H2 Heq) as [-> ->]. done.
Qed.

Lemma canonical_injective c c' :
  delimiter_free_fields c →
  delimiter_free_fields c' →
  certToVerify c = certToVerify c' →
  Certificate.user_id c = Certificate.user_id c' ∧
  Certificate.device_id c = Certificate.device_id c' ∧
  Certificate.tip_wallet_balance c = Certificate.tip_wallet_balance c' ∧
  Certificate.timestamp c = Certificate.timestamp c' ∧
  Certificate.nonce c = Certificate.nonce c' ∧
  Certificate.expiration c = Certificate.expiration c'.
Proof.
  intros (Hu & Hd & Ht & Hn) (Hu' & Hd' & Ht' & Hn') Heq.
  unfold certToVerify in Heq. rewrite !canonical_eq in Heq.
  apply split_at_delimiter in Heq as [-> Heq]; [|done..].
  apply split_at_delimiter in Heq as [-> Heq]; [|done..].
  apply split_at_delimiter in Heq as [Hb Heq]; [|apply delimiter_free_of_number..].
  apply split_at_delimiter in Heq as [-> Heq]; [|done..].
  apply split_at_delimiter in Heq as [-> ->]; [|done..].
  split_and!; try done. by apply (inj Js.of_number).
Qed.

(** X20.  When no text field holds a '|', the server's signature pins the whole
    certificate down.  Under the laws of the signature library: if [c]
    carries the server's signature of its own canonical string, then any
    certificate with that signature that passes the check has the same
    user, device, balance, timestamp, nonce and expiration, so it is [c]. *)
Theorem signature_pins_the_certificate cs `{!NaclLaws cs} c c' :
  server_signed cs c →
  delimiter_free_fields c →
  delimiter_free_fields c' →
  Certificate.signature c' = Certificate.signature c →
  isCertValid cs c' = Some true →
  c' = c.
Proof.
  intros Hsigned Hfree Hfree' Hsig Hvalid.
  destruct (decide (certToVerify c = certToVerify c')) as [Heq|Hne].
  - destruct (canonical_injective c c' Hfree Hfree' Heq) as (? & ? & ? & ? & ? & ?).
    destruct c, c'. simpl in *. congruence.
  - unfold isCertValid in Hvalid. rewrite Hsig, Hsigned in Hvalid.
    by rewrite (sign_binds cs _ _ Hne) in Hvalid.
Qed.

(** [signature_pins_the_certificate] at a worked example. *)
Lemma signature_pins_the_certificate_witness :
  Fixture.cert "alice" "dev1" 100 = Fixture.alice_cert.
Proof.
  apply (signature_pins_the_certificate Fixture.cs Fixture.alice_cert
           (Fixture.cert "alice" "dev1" 100)).
  - reflexivity.
  - repeat split.
  - repeat split.
  - reflexivity.
  - reflexivity.
Defined.

(** ** Invariants of the store *)

Lemma keyed_set_balance db holder newBalance :
  keyed_by_id db →
  keyed_by_id
    (mkDb (alter (λ u, User.mk (User.id u) newBalance (User.public_key u)) holder (users db))
          (transactions db)).
Proof.
  intros [Husers Htxs]. split; [|done]. intros k u. cbn [users].
  destruct (decide (holder = k)) as [<-|Hne].
  - rewrite lookup_alter_eq. destruct (users db !! holder) as [u0|] eqn:Hu0; [|done].
    intros [= <-]. simpl. by apply Husers.
  - rewrite lookup_alter_ne by done. apply Husers.
Qed.

Lemma keyed_insert_user db id balance public_key :
  keyed_by_id db →
  keyed_by_id (mkDb (<[id := User.mk id balance public_key]> (users db)) (transactions db)).
Proof.
  intros [Husers Htxs]. split; [|done]. intros k u. cbn [users].
  destruct (decide (id = k)) as [<-|Hne].
  - rewrite lookup_insert_eq. by intros [= <-].
  - rewrite lookup_insert_ne by done. apply Husers.
Qed.

Lemma keyed_credit receiverId amount db :
  keyed_by_id db → keyed_by_id (credit receiverId amount db).
Proof.
  intros Hdb. unfold credit. destruct (_ && _); [|done].
  destruct (users db !! receiverId).
  - by apply keyed_set_balance.
  - by apply keyed_insert_user.
Qed.

Lemma keyed_step certificate db tx :
  keyed_by_id db → keyed_by_id (step certificate db tx).
Proof.
  intros [Husers Htxs]. unfold step. destruct (skipped db tx); [done|].
  apply keyed_credit. split; [done|]. intros k r. cbn [transactions].
  destruct (decide (Tx.transaction_id tx = k)) as [<-|Hne].
  - rewrite lookup_insert_eq. by intros [= <-].
  - rewrite lookup_insert_ne by done. apply Htxs.
Qed.

Lemma keyed_replay certificate txs db :
  keyed_by_id db → keyed_by_id (replay certificate txs db).
Proof.
  revert db. induction txs as [|tx txs IH]; intros db Hdb; [done|].
  apply (IH (step certificate db tx)). by apply keyed_step.
Qed.

Lemma keyed_refundUnspent certificate totalSpent db :
  keyed_by_id db → keyed_by_id (Refund.refundUnspent certificate totalSpent db).1.
Proof.
  intros Hdb. rewrite refundUnspent_eq. destruct certificate as [c|]; [|done]. simpl.
  case_bool_decide; [|done]. destruct (users db !! Certificate.user_id c); [|done].
  by apply keyed_set_balance.
Qed.

(** X21.  Every route keeps each row under its own id: when every user row and
    every transaction row of the store sits under the key equal to its [id]
    field, the same holds after POST /sync (either handler), POST
    /certificate, POST /fund, GET /balance/:userId and POST /initialize,
    whatever the request and the outcome. *)
Theorem every_route_keeps_rows_keyed cs amb sreq creq freq userId default_balance ireq db :
  keyed_by_id db →
  keyed_by_id (Change.post_sync cs amb sreq db).1 ∧
  keyed_by_id (Refund.post_sync cs sreq db).1 ∧
  keyed_by_id (Wallet.post_certificate cs amb creq db).1 ∧
  keyed_by_id (Account.post_fund freq db).1 ∧
  keyed_by_id (Account.get_balance userId db).1 ∧
  keyed_by_id (Account.post_initialize default_balance ireq db).1.
Proof.
  intros Hdb. split_and!.
  - destruct (Change_post_sync_store cs amb sreq db) as [->|(txs & _ & ->)]; [done|].
    by apply keyed_replay.
  - destruct (Refund_post_sync_store cs sreq db) as [->|(txs & _ & ->)]; [done|].
    rewrite Refund_reconcile_store. by apply keyed_refundUnspent, keyed_replay.
  - destruct creq as [[[|a u]|] [[|b d]|] [amount|]];
      try (by rewrite post_certificate_incomplete by (simpl; auto)).
    rewrite post_certificate_eq.
    destruct (users db !! String a u); [|done]. case_bool_decide; [done|].
    by apply keyed_set_balance.
  - unfold Account.post_fund.
    destruct (Account.FundReq.user_id freq) as [[|a u]|]; try done;
      destruct (Account.FundReq.amount freq) as [amount|]; try done.
    rewrite fund_eq. destruct (users db !! String a u).
    + by apply keyed_set_balance.
    + by apply keyed_insert_user.
  - unfold Account.get_balance. rewrite fetch_balance_eq.
    destruct (users db !! userId); [done|]. by apply keyed_insert_user.
  - unfold Account.post_initialize.
    destruct (Account.InitReq.user_id ireq) as [[|a u]|]; try done;
      destruct (Account.InitReq.public_key ireq) as [[|b k]|]; try done.
    unfold Returning.upsert_public_key. cbn [error fst].
    destruct (users db !! String a u); by apply keyed_insert_user.
Qed.

(** [every_route_keeps_rows_keyed] at a worked example. *)
Lemma every_route_keeps_rows_keyed_witness :
  keyed_by_id (Change.post_sync Fixture.cs Fixture.amb Fixture.spend60 Fixture.alice_db).1 ∧
  keyed_by_id (Refund.post_sync Fixture.cs Fixture.spend60 Fixture.alice_db).1 ∧
  keyed_by_id (Wallet.post_certificate Fixture.cs Fixture.amb Fixture.load3
                 Fixture.alice_db).1 ∧
  keyed_by_id (Account.post_fund Scenario.fund_alice Fixture.alice_db).1 ∧
  keyed_by_id (Account.get_balance "bob" Fixture.alice_db).1 ∧
  keyed_by_id (Account.post_initialize 0 Scenario.register_alice Fixture.alice_db).1.
Proof.
  apply (every_route_keeps_rows_keyed Fixture.cs Fixture.amb Fixture.spend60 Fixture.load3
           Scenario.fund_alice "bob" 0 Scenario.register_alice Fixture.alice_db).
  split.
  - intros k u Hk. unfold Fixture.alice_db in Hk. cbn [users] in Hk.
    apply lookup_singleton_Some in Hk as [<- <-]. reflexivity.
  - intros k r Hk. unfold Fixture.alice_db in Hk. cbn [transactions] in Hk.
    by rewrite lookup_empty in Hk.
Defined.

Lemma solvent_balances_le db db' : solvent db → balances_le db db' → solvent db'.
Proof.
  intros Hdb Hle k u' Hu'. destruct (Hle k) as [_ Hk]. unfold balance_of in Hk.
  rewrite Hu' in Hk. destruct (users db !! k) as [u|] eqn:Hu; [|lia].
  specialize (Hdb k u Hu). lia.
Qed.

Lemma solvent_set_balance db holder newBalance :
  solvent db → 0 ≤ newBalance →
  solvent
    (mkDb (alter (λ u, User.mk (User.id u) newBalance (User.public_key u)) holder (users db))
          (transactions db)).
Proof.
  intros Hdb Hnew k u. cbn [users].
  destruct (decide (holder = k)) as [<-|Hne].
  - rewrite lookup_alter_eq. destruct (users db !! holder); [|done]. by intros [= <-].
  - rewrite lookup_alter_ne by done. apply Hdb.
Qed.

Lemma solvent_insert_user db id balance public_key :
  solvent db → 0 ≤ balance →
  solvent (mkDb (<[id := User.mk id balance public_key]> (users db)) (transactions db)).
Proof.
  intros Hdb Hnew k u. cbn [users].
  destruct (decide (id = k)) as [<-|Hne].
  - rewrite lookup_insert_eq. by intros [= <-].
  - rewrite lookup_insert_ne by done. apply Hdb.
Qed.

(** X22.  No route overdraws.  When no stored balance is negative, none is
    negative after POST /certificate (whatever is asked for: the amount is
    granted only if the balance covers it), after GET /balance/:userId, after
    POST /fund with an amount that is not negative, and after POST /sync
    (either handler, any outcome) with a batch that has no negative
    amount. *)
Theorem no_route_overdraws cs amb sreq creq freq userId db :
  solvent db →
  solvent (Wallet.post_certificate cs amb creq db).1 ∧
  solvent (Account.get_balance userId db).1 ∧
  ((∀ amount, Account.FundReq.amount freq = Some amount → 0 ≤ amount) →
   solvent (Account.post_fund freq db).1) ∧
  ((∀ txs, SyncReq.transactions sreq = Some txs → Forall (λ tx, 0 ≤ Tx.amount tx) txs) →
   solvent (Change.post_sync cs amb sreq db).1 ∧
   solvent (Refund.post_sync cs sreq db).1).
Proof.
  intros Hdb. split_and!.
  - destruct creq as [[[|a u]|] [[|b d]|] [amount|]];
      try (by rewrite post_certificate_incomplete by (simpl; auto)).
    rewrite post_certificate_eq.
    destruct (users db !! String a u); [|done]. case_bool_decide; [done|].
    apply solvent_set_balance; [done|lia].
  - unfold Account.get_balance. rewrite fetch_balance_eq.
    destruct (users db !! userId); [done|]. by apply solvent_insert_user.
  - intros Hamount. unfold Account.post_fund.
    destruct (Account.FundReq.user_id freq) as [[|a u]|]; try done;
      destruct (Account.FundReq.amount freq) as [amount|]; try done.
    specialize (Hamount amount eq_refl).
    rewrite fund_eq. destruct (users db !! String a u) as [user|] eqn:Huser.
    + apply solvent_set_balance; [done|]. specialize (Hdb _ _ Huser). lia.
    + by apply solvent_insert_user.
  - intros Hamounts. split.
    + apply (solvent_balances_le db); [done|].
      destruct (Change_post_sync_store cs amb sreq db) as [->|(txs & Htxs & ->)];
        [reflexivity|].
      apply replay_balances_le; auto.
    + apply (solvent_balances_le db); [done|].
      destruct (Refund_post_sync_store cs sreq db) as [->|(txs & Htxs & ->)];
        [reflexivity|].
      rewrite Refund_reconcile_store.
      trans (replay (SyncReq.certificate sreq) txs db).
      * apply replay_balances_le; auto.
      * apply refundUnspent_balances_le.
Qed.

(** [no_route_overdraws] at a worked example. *)
Lemma no_route_overdraws_witness :
  solvent (Wallet.post_certificate Fixture.cs Fixture.amb Fixture.load3 Fixture.alice_db).1 ∧
  solvent (Account.post_fund Scenario.fund_alice Fixture.alice_db).1 ∧
  solvent (Refund.post_sync Fixture.cs Fixture.spend60 Fixture.alice_db).1.
Proof.
  assert (solvent Fixture.alice_db) as Hdb.
  { intros k u Hk. unfold Fixture.alice_db in Hk. cbn [users] in Hk.
    apply lookup_singleton_Some in Hk as [<- <-]. simpl. lia. }
  destruct (no_route_overdraws Fixture.cs Fixture.amb Fixture.spend60 Fixture.load3
              Scenario.fund_alice "bob" Fixture.alice_db Hdb)
    as (Hcert & _ & Hfund & Hsync).
  split; [exact Hcert|]. split.
  - apply Hfund. intros amount [= <-]. lia.
  - apply Hsync. intros txs [= <-]. repeat constructor. simpl. lia.
Defined.

(** X23.  After a sync call that answered 200, GET /balance/:userId for the
    syncing user reports the balance the sync answer reported, and changes
    no stored row. *)
Theorem balance_route_agrees_with_sync cs amb req db db' body :
  Change.post_sync cs amb req db = (db', Json body) ∨
  Refund.post_sync cs req db = (db', Json body) →
  (Account.get_balance (syncingUserId req) db').2 = Json (SyncBody.balance body) ∧
  (∀ id u, users db' !! id = Some u →
     users (Account.get_balance (syncingUserId req) db').1 !! id = Some u).
Proof.
  intros Hrun.
  assert (SyncBody.balance body = balance_of db' (syncingUserId req)) as ->.
  { destruct (SyncReq.transactions req) as [txs|] eqn:Htxs.
    - destruct Hrun as [Hrun|Hrun].
      + by destruct (Change_post_sync_json _ _ _ _ _ _ _ Htxs Hrun) as [_ ->].
      + by destruct (Refund_post_sync_json _ _ _ _ _ _ Htxs Hrun) as (? & _ & ->).
    - unfold Change.post_sync, Refund.post_sync in Hrun. rewrite Htxs in Hrun.
      by destruct Hrun. }
  unfold Account.get_balance, balance_of. rewrite fetch_balance_eq.
  destruct (users db' !! syncingUserId req) as [user|] eqn:Huser; [done|].
  split; [done|]. intros id u Hu. cbn [fst users].
  rewrite lookup_insert_ne; [done|]. congruence.
Qed.

(** [balance_route_agrees_with_sync] at a worked example. *)
Lemma balance_route_agrees_with_sync_witness :
  (Account.get_balance "alice"
     (Refund.post_sync Fixture.cs Fixture.spend60 Fixture.alice_db).1).2 = Json 45.
Proof.
  destruct (Refund.post_sync Fixture.cs Fixture.spend60 Fixture.alice_db)
    as [db' [body|status error]] eqn:Hrun; [|by vm_compute in Hrun].
  destruct (balance_route_agrees_with_sync Fixture.cs Fixture.amb Fixture.spend60
              Fixture.alice_db db' body (or_intror Hrun)) as [Hagree _].
  cbn [fst]. change (syncingUserId Fixture.spend60) with "alice" in Hagree.
  rewrite Hagree. vm_compute in Hrun. by injection Hrun as _ <-.
Defined.

(** ** The [processed] list *)

Lemma Refund_processed_spec certificate txs locals db id :
  id ∈ (Refund_loop_locals certificate txs locals db).1 ↔
  id ∈ locals.1 ∨
  (transactions db !! id = None ∧ ∃ tx, tx ∈ txs ∧ Tx.transaction_id tx = id).
Proof.
  revert locals db. induction txs as [|tx txs IH]; intros locals db.
  { simpl. split; [by left|]. intros [?|(_ & tx & Hin & _)]; [done|].
    by apply elem_of_nil in Hin. }
  cbn [Refund_loop_locals]. rewrite IH. unfold Refund_locals.
  destruct (transactions db !! Tx.transaction_id tx) as [row|] eqn:Hrow.
  - rewrite bool_decide_eq_true_2 by (by eexists).
    rewrite (step_skipped_id _ _ _ (skipped_stored _ _ _ Hrow)).
    split; (intros [?|(Hnone & tx' & Hin & Hid)]; [by left|right]).
    + split; [done|]. exists tx'. split; [by apply list_elem_of_further|done].
    + split; [done|]. exists tx'. split; [|done].
      apply elem_of_cons in Hin as [->|Hin]; [congruence|done].
  - rewrite bool_decide_eq_false_2 by (by intros [? ?]).
    assert (id ∈ ((if negb (Js.truthy (Tx.sender_signature tx))
                   then ((locals.1 ++ [Tx.transaction_id tx])%list, locals.2)
                   else ((locals.1 ++ [Tx.transaction_id tx])%list,
                         locals.2 + Tx.amount tx)).1)
            ↔ id ∈ locals.1 ∨ id = Tx.transaction_id tx) as ->.
    { destruct (negb _); cbn [fst]; rewrite elem_of_app, list_elem_of_singleton; done. }
    split.
    + intros [[?| ->]|(Hnone & tx' & Hin & Hid)]; [by left|right..].
      * split; [done|]. exists tx. split; [apply list_elem_of_here|done].
      * split.
        -- destruct (transactions db !! id) as [row'|] eqn:Hrow'; [|done].
           by rewrite (step_keeps_row _ _ _ _ _ Hrow') in Hnone.
        -- exists tx'. split; [by apply list_elem_of_further|done].
    + intros [?|(Hnone & tx' & Hin & Hid)]; [by left; left|].
      destruct (decide (id = Tx.transaction_id tx)) as [->|Hne]; [by left; right|].
      right. split.
      * rewrite step_transactions. destruct (skipped db tx); [done|].
        by rewrite lookup_insert_ne.
      * exists tx'. split; [|done].
        apply elem_of_cons in Hin as [->|Hin]; [congruence|done].
Qed.

(** X24.  What a 200 answer lists as processed.  The change-certificate handler
    lists the id of every transaction of the batch, in the order sent.  The
    refund handler lists an id exactly when it belongs to a transaction of
    the batch and was not stored before the call, so an id recorded by an
    earlier sync is never reported as processed again. *)
Theorem processed_lists cs amb req txs db :
  SyncReq.transactions req = Some txs →
  (∀ db' body, Change.post_sync cs amb req db = (db', Json body) →
     SyncBody.processed body = Tx.transaction_id <$> txs) ∧
  (∀ db' body id, Refund.post_sync cs req db = (db', Json body) →
     id ∈ SyncBody.processed body ↔
     transactions db !! id = None ∧ ∃ tx, tx ∈ txs ∧ Tx.transaction_id tx = id).
Proof.
  intros Htxs. split.
  - intros db' body Hrun.
    by destruct (Change_post_sync_json _ _ _ _ _ _ _ Htxs Hrun) as [_ ->].
  - intros db' body id Hrun.
    destruct (Refund_post_sync_json _ _ _ _ _ _ Htxs Hrun) as (unspent & _ & ->).
    cbn [SyncBody.processed]. rewrite Refund_processed_spec. cbn [fst].
    split; [intros [Hnil|?]; [by apply elem_of_nil in Hnil|done]|by right].
Qed.

(** [processed_lists] at a worked example. *)
Lemma processed_lists_witness :
  (∃ db' body,
     Change.post_sync Fixture.cs Fixture.amb Fixture.spend60 Fixture.recorded_db
       = (db', Json body) ∧
     SyncBody.processed body = ["t1"]) ∧
  (∃ db' body,
     Refund.post_sync Fixture.cs Fixture.spend60 Fixture.recorded_db = (db', Json body) ∧
     "t1" ∉ SyncBody.processed body).
Proof.
  split.
  - destruct (Change.post_sync Fixture.cs Fixture.amb Fixture.spend60 Fixture.recorded_db)
      as [db' [body|status error]] eqn:Hrun; [|by vm_compute in Hrun].
    exists db', body. split; [reflexivity|].
    exact (proj1 (processed_lists Fixture.cs Fixture.amb Fixture.spend60 [Fixture.pay_bob]
                    Fixture.recorded_db eq_refl) db' body Hrun).
  - destruct (Refund.post_sync Fixture.cs Fixture.spend60 Fixture.recorded_db)
      as [db' [body|status error]] eqn:Hrun; [|by vm_compute in Hrun].
    exists db', body. split; [reflexivity|].
    intros Hin.
    apply (proj2 (processed_lists Fixture.cs Fixture.amb Fixture.spend60 [Fixture.pay_bob]
                    Fixture.recorded_db eq_refl) db' body "t1" Hrun) in Hin as [Hnone _].
    discriminate Hnone.
Defined.

(** ** What the server does not remember *)

(** X25.  The change-certificate handler keeps no record of a certificate it has
    seen: for a valid certificate and a batch, the [new_certificate],
    [total_spent] and [processed] of the answer are the same whatever the
    store holds, so presenting the same certificate again, with the same or
    another batch, is answered as if it were the first time. *)
Theorem change_handler_keeps_no_certificate_state cs amb c txs db1 db2 :
  isCertValid cs c = Some true →
  ∃ db1' db2' body1 body2,
    Change.post_sync cs amb (presenting c txs) db1 = (db1', Json body1) ∧
    Change.post_sync cs amb (presenting c txs) db2 = (db2', Json body2) ∧
    SyncBody.new_certificate body1 = SyncBody.new_certificate body2 ∧
    SyncBody.total_spent body1 = SyncBody.total_spent body2 ∧
    SyncBody.processed body1 = SyncBody.processed body2.
Proof.
  intros Hvalid. destruct (presenting_checks cs c txs Hvalid) as [Hid Hcheck].
  rewrite !(Change_post_sync_eq cs amb (presenting c txs) txs _ eq_refl Hid Hcheck).
  by eexists _, _, _, _.
Qed.

(** [change_handler_keeps_no_certificate_state] at a worked example: the
    certificate for 100 is presented before and after "t1" was recorded. *)
Lemma change_handler_keeps_no_certificate_state_witness :
  ∃ db1' db2' body1 body2,
    Change.post_sync Fixture.cs Fixture.amb (presenting Fixture.alice_cert [Fixture.pay_bob])
      Fixture.alice_db = (db1', Json body1) ∧
    Change.post_sync Fixture.cs Fixture.amb (presenting Fixture.alice_cert [Fixture.pay_bob])
      Fixture.recorded_db = (db2', Json body2) ∧
    SyncBody.new_certificate body1 = SyncBody.new_certificate body2 ∧
    SyncBody.total_spent body1 = SyncBody.total_spent body2 ∧
    SyncBody.processed body1 = SyncBody.processed body2.
Proof.
  exact (change_handler_keeps_no_certificate_state Fixture.cs Fixture.amb
           Fixture.alice_cert [Fixture.pay_bob] Fixture.alice_db Fixture.recorded_db
           eq_refl).
Defined.

(** ** services/CryptoService.ts on its own *)

(** X26.  Under the laws of the signature library, a signature made by [sign]
    verifies under the key [getPublicKey] returns exactly for the message
    that was signed: [verify] answers true for that message and false for
    any other. *)
Theorem sign_then_verify cs `{!NaclLaws cs} message message' :
  CryptoService.verify cs message' (CryptoService.sign cs message)
    (CryptoService.getPublicKey cs) = Some (bool_decide (message = message')).
Proof.
  case_bool_decide as Heq.
  - subst message'. by apply sign_verifies.
  - by apply sign_binds.
Qed.

(** [sign_then_verify] with the example service. *)
Lemma sign_then_verify_witness :
  CryptoService.verify Fixture.cs "a|b" (CryptoService.sign Fixture.cs "a|b")
    (CryptoService.getPublicKey Fixture.cs) = Some true ∧
  CryptoService.verify Fixture.cs "a|c" (CryptoService.sign Fixture.cs "a|b")
    (CryptoService.getPublicKey Fixture.cs) = Some false.
Proof.
  split.
  - exact (sign_then_verify Fixture.cs "a|b" "a|b").
  - exact (sign_then_verify Fixture.cs "a|b" "a|c").
Defined.


(** [post_initialize_registers] at a worked example: Alice keeps her 5. *)
Lemma post_initialize_registers_witness :
  ∃ db',
    Account.post_initialize 0 Scenario.register_alice Fixture.alice_db = (db', Json ()) ∧
    users db' !! "alice" = Some (User.mk "alice" 5 "alice-key").
Proof.
  destruct (post_initialize_registers 0 Scenario.register_alice "alice" "alice-key"
              Fixture.alice_db eq_refl ltac:(discriminate) eq_refl ltac:(discriminate))
    as (db' & Hrun & _ & Hrow & _).
  exists db'. split; [exact Hrun|exact Hrow].
Defined.
